(** * Bridge event listener (script.py): scanner, processor, dispatcher

    A shallow embedding of the event-relay pipeline of [src/script.py]:
    [EventScanner.scan_for_events], [TransactionProcessor.process_event],
    [CrossChainDispatcher.dispatch] with [_simulate_api_call], and the body of
    the loop of [BridgeOrchestrator.run].

    Events and payloads are Python dictionaries in the source and stay
    dynamically typed here ([pyval]).  The configuration is the literal
    [CONFIG] of the script, so it is a record of integers.  Python exceptions
    are values of [exn]; a method is a function from the program state to an
    [outcome] and the next state, so that a [try]/[except] sees the state
    the failed body left behind. *)

From Stdlib Require Import ZArith List String Ascii Bool Lia Permutation.
From Stdlib.Strings Require Import Byte.
From Stdlib Require Import DecimalString OrderedTypeEx.
Import ListNotations.

Local Open Scope string_scope.
Local Open Scope Z_scope.

Local Set Warnings "-register-all".

(** ** Python values *)

Inductive pyval : Type :=
| PyNone
| PyBool (b : bool)
| PyInt (z : Z)
| PyStr (s : string)
| PyBytes (bs : list byte)               (* bytes / HexBytes *)
| PyList (l : list pyval)
| PyDict (d : list (string * pyval)).    (* insertion-ordered, keys unique *)

(** Exceptions.  [isinstance_Exception] tells the classes an
    [except Exception] clause catches from the two that derive from
    [BaseException] only. *)

Inductive request_failure := HTTPError | RequestsConnectionError | Timeout.

Inductive exn : Type :=
| BlockNotFound
| KeyError (key : string)
| TypeError
| AttributeError
| UnboundLocalError (name : string)
| ValueError
| ConnectionError
| RequestException (why : request_failure)
| OtherException (class : string)
| KeyboardInterrupt
| CancelledError.

Definition isinstance_Exception (e : exn) : bool :=
  match e with
  | KeyboardInterrupt | CancelledError => false
  | _ => true
  end.

Definition isinstance_RequestException (e : exn) : bool :=
  match e with
  | RequestException _ => true
  | _ => false
  end.

Definition isinstance_BlockNotFound (e : exn) : bool :=
  match e with
  | BlockNotFound => true
  | _ => false
  end.

(** [except (KeyError, TypeError)] *)
Definition isinstance_KeyError_or_TypeError (e : exn) : bool :=
  match e with
  | KeyError _ | TypeError => true
  | _ => false
  end.

Inductive outcome (A : Type) : Type :=
| Returns (a : A)
| Raises (e : exn).

Arguments Returns {A} a.
Arguments Raises {A} e.

(** ** Program state *)

Inductive level := DEBUG | INFO | WARNING | ERROR | CRITICAL.

Record state : Type := mkState {
  (* EventScanner.last_scanned_block *)
  last_scanned_block : Z;
  (* the local variable confirmation_depth of the running scan_for_events
     frame; None while it is unbound *)
  confirmation_depth : option Z;
  (* how many times eth.block_number has been read *)
  head_reads : nat;
  (* (fromBlock, toBlock) of every filter created on the node, oldest first *)
  filters : list (Z * Z);
  (* the json bodies handed to requests.post, oldest first *)
  posts : list pyval;
  (* records written to the logger, oldest first; interpolated values are
     left out of the message *)
  logged : list (level * string)
}.

Definition Py (A : Type) : Type := state -> outcome A * state.

Definition ret {A} (a : A) : Py A := fun s => (Returns a, s).

Definition raise {A} (e : exn) : Py A := fun s => (Raises e, s).

Definition bind {A B} (m : Py A) (k : A -> Py B) : Py B :=
  fun s =>
    match m s with
    | (Returns a, s') => k a s'
    | (Raises e, s') => (Raises e, s')
    end.

Definition lift {A} (o : outcome A) : Py A := fun s => (o, s).

(** [try: body  except <classes>: handler]; an exception outside [classes],
    or one raised by the handler, goes to the caller. *)
Definition try_except {A} (body : Py A) (classes : exn -> bool)
    (handler : exn -> Py A) : Py A :=
  fun s =>
    match body s with
    | (Returns a, s') => (Returns a, s')
    | (Raises e, s') => if classes e then handler e s' else (Raises e, s')
    end.

Notation "x <- m ;; k" := (bind m (fun x => k))
  (at level 61, m at next level, right associativity).
Notation "m ;; k" := (bind m (fun _ => k))
  (at level 61, right associativity).

Definition logger (l : level) (msg : string) : Py unit :=
  fun s =>
    (Returns tt,
     mkState (last_scanned_block s) (confirmation_depth s) (head_reads s)
             (filters s) (posts s) (logged s ++ [(l, msg)])).

Definition get_last_scanned_block : Py Z :=
  fun s => (Returns (last_scanned_block s), s).

Definition set_last_scanned_block (b : Z) : Py unit :=
  fun s =>
    (Returns tt,
     mkState b (confirmation_depth s) (head_reads s)
             (filters s) (posts s) (logged s)).

Definition set_confirmation_depth (d : option Z) : Py unit :=
  fun s =>
    (Returns tt,
     mkState (last_scanned_block s) d (head_reads s)
             (filters s) (posts s) (logged s)).

(** Reading a local variable that was never assigned. *)
Definition get_confirmation_depth : Py Z :=
  fun s =>
    match confirmation_depth s with
    | Some d => (Returns d, s)
    | None => (Raises (UnboundLocalError "confirmation_depth"), s)
    end.

Fixpoint for_each {A} (l : list A) (body : A -> Py unit) : Py unit :=
  match l with
  | [] => ret tt
  | x :: r => body x ;; for_each r body
  end.

(** ** Operations on Python values *)

Fixpoint dict_get {A} (k : string) (d : list (string * A)) : option A :=
  match d with
  | [] => None
  | (k', v) :: r => if String.eqb k k' then Some v else dict_get k r
  end.

(** [v[k]] for a string key [k]. *)
Definition subscript (v : pyval) (k : string) : outcome pyval :=
  match v with
  | PyDict d =>
      match dict_get k d with
      | Some x => Returns x
      | None => Raises (KeyError k)
      end
  | _ => Raises TypeError
  end.

(** [payload.get(k, default)] *)
Definition method_get (v : pyval) (k : string) (default : pyval)
  : outcome pyval :=
  match v with
  | PyDict d =>
      match dict_get k d with
      | Some x => Returns x
      | None => Returns default
      end
  | _ => Raises AttributeError
  end.

Definition hex_digit (n : N) : ascii :=
  match String.get (N.to_nat n) "0123456789abcdef" with
  | Some c => c
  | None => "0"%char
  end.

Definition hex_of_byte (b : byte) : string :=
  let n := Byte.to_N b in
  String (hex_digit (N.div n 16)) (String (hex_digit (N.modulo n 16)) "").

Definition hex_of_bytes (bs : list byte) : string :=
  String.concat "" (map hex_of_byte bs).

(** [v.hex()]: only byte strings have the method among the modelled values. *)
Definition method_hex (v : pyval) : outcome pyval :=
  match v with
  | PyBytes bs => Returns (PyStr (hex_of_bytes bs))
  | _ => Raises AttributeError
  end.

Fixpoint bytes_eqb (a b : list byte) : bool :=
  match a, b with
  | [], [] => true
  | x :: a', y :: b' => Byte.eqb x y && bytes_eqb a' b'
  | _, _ => false
  end.

(** Python [==]: [bool] is a subclass of [int], lists compare element by
    element and dictionaries as mappings. *)
Fixpoint py_eq (a b : pyval) {struct a} : bool :=
  match a, b with
  | PyNone, PyNone => true
  | PyBool x, PyBool y => Bool.eqb x y
  | PyBool x, PyInt y => Z.eqb (if x then 1 else 0) y
  | PyInt x, PyBool y => Z.eqb x (if y then 1 else 0)
  | PyInt x, PyInt y => Z.eqb x y
  | PyStr x, PyStr y => String.eqb x y
  | PyBytes x, PyBytes y => bytes_eqb x y
  | PyList x, PyList y =>
      (fix go (x : list pyval) (y : list pyval) : bool :=
         match x, y with
         | [], [] => true
         | u :: x', v :: y' => py_eq u v && go x' y'
         | _, _ => false
         end) x y
  | PyDict x, PyDict y =>
      Nat.eqb (List.length x) (List.length y) &&
      (fix go (x : list (string * pyval)) : bool :=
         match x with
         | [] => true
         | (k, u) :: x' =>
             match dict_get k y with
             | Some v => py_eq u v && go x'
             | None => false
             end
         end) x
  | _, _ => false
  end.

Definition py_ne (a b : pyval) : bool := negb (py_eq a b).

(** Truth value of an object, as [if payload:] takes it. *)
Definition truthy (v : pyval) : bool :=
  match v with
  | PyNone => false
  | PyBool b => b
  | PyInt z => negb (Z.eqb z 0)
  | PyStr s => negb (String.eqb s "")
  | PyBytes bs => match bs with [] => false | _ => true end
  | PyList l => match l with [] => false | _ => true end
  | PyDict d => match d with [] => false | _ => true end
  end.

(** ** Configuration *)

Record chain_config : Type := {
  chain_name : string;
  chain_id : Z;
  confirmation_blocks : Z
}.

(** ** TransactionProcessor *)

Record TransactionProcessor : Type := {
  source_chain_id : Z;
  dest_chain_config : chain_config
}.

Definition process_event (self : TransactionProcessor) (event : pyval)
  : Py (option pyval) :=
  try_except
    (args <- lift (subscript event "args") ;;
     dest <- lift (subscript args "destinationChainId") ;;
     if py_ne dest (PyInt (chain_id (dest_chain_config self))) then
       (* the message of logger.debug is built before the call *)
       _ <- lift (subscript args "nonce") ;;
       _ <- lift (subscript args "destinationChainId") ;;
       logger DEBUG "Skipping event meant for another chain." ;;
       ret None
     else
       tx <- lift (subscript event "transactionHash") ;;
       tx_hex <- lift (method_hex tx) ;;
       block <- lift (subscript event "blockNumber") ;;
       sender <- lift (subscript args "sender") ;;
       receiver <- lift (subscript args "receiver") ;;
       amount <- lift (subscript args "amount") ;;
       nonce <- lift (subscript args "nonce") ;;
       dest' <- lift (subscript args "destinationChainId") ;;
       let payload :=
         PyDict [ ("sourceTransactionHash", tx_hex);
                  ("sourceBlockNumber", block);
                  ("sender", sender);
                  ("receiver", receiver);
                  ("amount", amount);
                  ("nonce", nonce);
                  ("sourceChainId", PyInt (source_chain_id self));
                  ("destinationChainId", dest') ] in
       _ <- lift (subscript payload "nonce") ;;
       logger INFO "Successfully processed event. Payload prepared." ;;
       ret (Some payload))
    isinstance_KeyError_or_TypeError
    (fun _ =>
       logger ERROR "Failed to process event due to malformed data." ;;
       ret None).

(** ** BlockchainConnector and EventScanner *)

(** The node behind [connector.web3].  Each call can return or raise;
    [block_number w n] is what the [n]-th read of [eth.block_number] gives
    (the head moves between reads). *)
Record Web3 : Type := {
  is_connected : bool;
  block_number : nat -> outcome Z;
  create_filter : Z -> Z -> outcome unit;
  get_all_entries : Z -> Z -> outcome (list pyval)
}.

Record BlockchainConnector : Type := {
  name : string;
  web3 : option Web3
}.

Record EventScanner : Type := {
  connector : BlockchainConnector;
  config : chain_config
}.

Definition eth_block_number (w : Web3) : Py Z :=
  fun s =>
    (block_number w (head_reads s),
     mkState (last_scanned_block s) (confirmation_depth s) (S (head_reads s))
             (filters s) (posts s) (logged s)).

Definition TokensLocked_create_filter (w : Web3) (fromBlock toBlock : Z)
  : Py unit :=
  fun s =>
    (create_filter w fromBlock toBlock,
     mkState (last_scanned_block s) (confirmation_depth s) (head_reads s)
             (filters s ++ [(fromBlock, toBlock)]) (posts s) (logged s)).

(** The loop that logs the details of every new event reads [event['args']]. *)
Definition log_event_details (event : pyval) : Py unit :=
  _ <- lift (subscript event "args") ;;
  logger INFO "  - Event details".

(** [if new_events:] and the logging under it. *)
Definition log_new_events (new_events : list pyval) : Py unit :=
  match new_events with
  | [] => ret tt
  | _ =>
      logger WARNING "Found new 'TokensLocked' event(s)!" ;;
      for_each new_events log_event_details
  end.

(** The body of the [try] statement of [scan_for_events]. *)
Definition scan_body (self : EventScanner) (w : Web3) : Py (list pyval) :=
  latest_block <- eth_block_number w ;;
  set_confirmation_depth (Some (confirmation_blocks (config self))) ;;
  depth <- get_confirmation_depth ;;
  let to_block := latest_block - depth in
  cursor <- get_last_scanned_block ;;
  if cursor >=? to_block then
    logger INFO "No new blocks to scan." ;;
    ret []
  else
    let from_block := cursor + 1 in
    logger INFO "Scanning..." ;;
    TokensLocked_create_filter w from_block to_block ;;
    new_events <- lift (get_all_entries w from_block to_block) ;;
    log_new_events new_events ;;
    set_last_scanned_block to_block ;;
    ret new_events.

(** Its two handlers: [except BlockNotFound] and [except Exception]. *)
Definition scan_handler (w : Web3) (e : exn) : Py (list pyval) :=
  if isinstance_BlockNotFound e then
    logger WARNING "Block not found during scan. Possible reorg." ;;
    head <- eth_block_number w ;;
    depth <- get_confirmation_depth ;;
    set_last_scanned_block (head - depth * 2) ;;
    ret []
  else
    logger ERROR "An unexpected error occurred during event scan." ;;
    ret [].

(** A call starts with a fresh frame: [confirmation_depth] is unbound. *)
Definition scan_for_events (self : EventScanner) : Py (list pyval) :=
  set_confirmation_depth None ;;
  match web3 (connector self) with
  | None =>
      logger ERROR "Cannot scan, connector is not available." ;;
      ret []
  | Some w =>
      if negb (is_connected w) then
        logger ERROR "Cannot scan, connector is not available." ;;
        ret []
      else
        try_except (scan_body self w) isinstance_Exception (scan_handler w)
  end.

(** ** json.dumps(payload, sort_keys=True) *)

Definition quote : string := String "034"%char "".

Definition escape_char (c : ascii) : string :=
  let n := N_of_ascii c in
  if N.eqb n 34 then String "\"%char quote
  else if N.eqb n 92 then "\\"
  else if N.eqb n 10 then "\n"
  else if N.eqb n 13 then "\r"
  else if N.eqb n 9 then "\t"
  else if N.eqb n 8 then "\b"
  else if N.eqb n 12 then "\f"
  else if (N.leb 32 n && N.leb n 126)%bool then String c ""
  else "\u00" ++ String (hex_digit (N.div n 16))
                        (String (hex_digit (N.modulo n 16)) "").

Fixpoint escape (s : string) : string :=
  match s with
  | EmptyString => ""
  | String c r => escape_char c ++ escape r
  end.

Definition encode_string (s : string) : string := quote ++ escape s ++ quote.

Definition encode_int (z : Z) : string := NilZero.string_of_int (Z.to_int z).

Fixpoint insert_item {A} (x : string * A) (l : list (string * A))
  : list (string * A) :=
  match l with
  | [] => [x]
  | y :: r =>
      if String.leb (fst x) (fst y) then x :: y :: r
      else y :: insert_item x r
  end.

(** [sorted(dct.items())]: the keys of a dictionary are distinct, so the
    items are ordered by key. *)
Fixpoint sort_items {A} (l : list (string * A)) : list (string * A) :=
  match l with
  | [] => []
  | x :: r => insert_item x (sort_items r)
  end.

(** The encoded parts of a container, up to the first one that fails. *)
Fixpoint all_returned (l : list (outcome string)) : outcome (list string) :=
  match l with
  | [] => Returns []
  | Raises e :: _ => Raises e
  | Returns x :: r =>
      match all_returned r with
      | Returns xs => Returns (x :: xs)
      | Raises e => Raises e
      end
  end.

Definition encode_item (kv : string * outcome string) : outcome string :=
  match snd kv with
  | Returns v => Returns (encode_string (fst kv) ++ ": " ++ v)
  | Raises e => Raises e
  end.

Fixpoint json_dumps (v : pyval) : outcome string :=
  match v with
  | PyNone => Returns "null"
  | PyBool b => Returns (if b then "true" else "false")
  | PyInt z => Returns (encode_int z)
  | PyStr s => Returns (encode_string s)
  | PyBytes _ => Raises TypeError   (* not JSON serializable *)
  | PyList l =>
      match all_returned
              ((fix go (l : list pyval) : list (outcome string) :=
                  match l with
                  | [] => []
                  | x :: r => json_dumps x :: go r
                  end) l) with
      | Returns parts => Returns ("[" ++ String.concat ", " parts ++ "]")
      | Raises e => Raises e
      end
  | PyDict d =>
      match all_returned
              (map encode_item
                 (sort_items
                    ((fix go (d : list (string * pyval))
                        : list (string * outcome string) :=
                        match d with
                        | [] => []
                        | (k, x) :: r => (k, json_dumps x) :: go r
                        end) d))) with
      | Returns parts => Returns ("{" ++ String.concat ", " parts ++ "}")
      | Raises e => Raises e
      end
  end.

(** ** CrossChainDispatcher *)

(** The validator account: what [signHash] gives for a message hash. *)
Record CrossChainDispatcher : Type := {
  signHash : list byte -> outcome (list byte)
}.

Section Dispatch.

(** [Web3.keccak(text=...)]. *)
Variable keccak : string -> list byte.

(** [requests.post] to the mock relayer: the status code of the response
    to the [n]-th request, or the exception the request raises. *)
Variable requests_post : nat -> pyval -> outcome Z.

Definition post (body : pyval) : Py Z :=
  fun s =>
    (requests_post (List.length (posts s)) body,
     mkState (last_scanned_block s) (confirmation_depth s) (head_reads s)
             (filters s) (posts s ++ [body]) (logged s)).

(** [response.raise_for_status()] *)
Definition raise_for_status (status : Z) : Py unit :=
  if ((400 <=? status) && (status <? 600))%bool
  then raise (RequestException HTTPError)
  else ret tt.

Definition _simulate_api_call (payload : pyval) (signature : string)
  : Py unit :=
  let dispatch_data :=
    PyDict [ ("attestation",
              PyDict [ ("payload", payload);
                       ("signature", PyStr signature) ]) ] in
  logger INFO "Dispatching signed payload to mock relayer API" ;;
  try_except
    (status <- post dispatch_data ;;
     raise_for_status status ;;
     _ <- lift (subscript payload "nonce") ;;
     logger INFO "Successfully dispatched payload.")
    isinstance_RequestException
    (fun _ => logger ERROR "Failed to communicate with relayer API").

Definition dispatch (self : CrossChainDispatcher) (payload : pyval)
  : Py unit :=
  try_except
    (message <- lift (json_dumps payload) ;;
     let message_hash := keccak message in
     signature <- lift (signHash self message_hash) ;;
     _ <- lift (subscript payload "nonce") ;;
     logger INFO "Payload signed by validator." ;;
     logger INFO "  - Signature" ;;
     _simulate_api_call payload (hex_of_bytes signature))
    isinstance_Exception
    (fun _ =>
       _ <- lift (method_get payload "nonce" (PyStr "N/A")) ;;
       logger ERROR "Failed to dispatch payload").

(** ** BridgeOrchestrator: one turn of the loop of [run] *)

Record BridgeOrchestrator : Type := {
  event_scanner : EventScanner;
  tx_processor : TransactionProcessor;
  dispatcher : CrossChainDispatcher
}.

Definition isinstance_KeyboardInterrupt_or_Exception (e : exn) : bool :=
  match e with
  | KeyboardInterrupt => true
  | _ => isinstance_Exception e
  end.

Definition process_and_dispatch (self : BridgeOrchestrator) (event : pyval)
  : Py unit :=
  payload <- process_event (tx_processor self) event ;;
  match payload with
  | Some p => if truthy p then dispatch (dispatcher self) p else ret tt
  | None => ret tt
  end.

(** The result is the value of [is_running] after the turn.  The two
    [asyncio.sleep] calls are left out: time is not part of the state. *)
Definition run_iteration (self : BridgeOrchestrator) : Py bool :=
  try_except
    (confirmed_events <- scan_for_events (event_scanner self) ;;
     match confirmed_events with
     | [] => logger INFO "No new confirmed events found."
     | _ => for_each confirmed_events (process_and_dispatch self)
     end ;;
     ret true)
    isinstance_KeyboardInterrupt_or_Exception
    (fun e =>
       match e with
       | KeyboardInterrupt =>
           logger INFO "Shutdown signal received. Stopping orchestrator." ;;
           ret false
       | _ =>
           logger CRITICAL "A critical error occurred in the main loop" ;;
           logger INFO "Service will attempt to recover in 30 seconds." ;;
           ret true
       end).

End Dispatch.

(** ** BridgeOrchestrator.run

    [run_loop turns] is the [while self.is_running] loop followed for at
    most [turns] turns; its result is the value of [is_running] then. *)

Section RunLoop.

Variable keccak : string -> list byte.
Variable requests_post : nat -> pyval -> outcome Z.

Fixpoint run_loop (turns : nat) (self : BridgeOrchestrator) : Py bool :=
  match turns with
  | O => ret true
  | S n =>
      running <- run_iteration keccak requests_post self ;;
      if running then run_loop n self else ret false
  end.

Definition run_for (turns : nat) (self : BridgeOrchestrator) : Py bool :=
  logger INFO "Bridge Event Listener service starting." ;;
  running <- run_loop turns self ;;
  (if running then ret tt
   else logger INFO "Bridge Event Listener service has stopped.") ;;
  ret running.

End RunLoop.

(** ** Construction: connector, scanner, processor, dispatcher, orchestrator

    At start-up the configuration is the dictionary [CONFIG] itself, read
    key by key, so it is a [pyval] here.  [RuntimeError] is one of the
    further classes of [exn]. *)

Definition RuntimeError : exn := OtherException "RuntimeError".

(** [except (ValueError, RuntimeError)] *)
Definition isinstance_ValueError_or_RuntimeError (e : exn) : bool :=
  match e with
  | ValueError => true
  | OtherException class => String.eqb class "RuntimeError"
  | _ => false
  end.

(** [d[k] = v] on a dictionary: the key keeps its place when it is there
    and goes to the end when it is new. *)
Fixpoint dict_set {A} (k : string) (v : A) (d : list (string * A))
  : list (string * A) :=
  match d with
  | [] => [(k, v)]
  | (k', v') :: r =>
      if String.eqb k k' then (k, v) :: r else (k', v') :: dict_set k v r
  end.

Definition setitem (target : pyval) (k : string) (v : pyval) : outcome pyval :=
  match target with
  | PyDict d => Returns (PyDict (dict_set k v d))
  | _ => Raises TypeError
  end.

(** A [BlockchainConnector] object: its attributes, and how many times it
    has built a client. *)
Record connector_object : Type := {
  conn_name : pyval;
  conn_rpc_url : pyval;
  conn_web3 : option Web3;
  conn_attempts : nat
}.

Record contract_object : Type := {
  contract_address : string
}.

Record scanner_object : Type := {
  scanner_connector : connector_object;
  scanner_config : pyval;
  scanner_contract : contract_object
}.

Record processor_object : Type := {
  processor_source_chain_id : pyval;
  processor_dest_chain_config : pyval
}.

Record orchestrator_object : Type := {
  orchestrator_config : pyval;
  poll_interval : pyval;
  source_connector : connector_object;
  orchestrator_scanner : scanner_object;
  orchestrator_processor : processor_object;
  orchestrator_dispatcher : CrossChainDispatcher;
  is_running : bool
}.

Section Startup.

(** [Web3(Web3.HTTPProvider(rpc_url))] at the [n]-th attempt of a
    connector. *)
Variable provider : nat -> pyval -> outcome Web3.

(** [web3.eth.chain_id], read for the log line of [connect]. *)
Variable eth_chain_id : Web3 -> outcome Z.

(** [web3.to_checksum_address]. *)
Variable to_checksum_address : pyval -> outcome string.

(** [Account.from_key]. *)
Variable from_key : pyval -> outcome CrossChainDispatcher.

(** [BridgeOrchestrator.run], entered by [main] once the orchestrator is
    built. *)
Variable run : orchestrator_object -> Py unit.

Definition connect (self : connector_object) : Py connector_object :=
  try_except
    (w <- lift (provider (conn_attempts self) (conn_rpc_url self)) ;;
     if negb (is_connected w) then raise ConnectionError
     else
       _ <- lift (eth_chain_id w) ;;
       logger INFO "Successfully connected." ;;
       ret {| conn_name := conn_name self;
              conn_rpc_url := conn_rpc_url self;
              conn_web3 := Some w;
              conn_attempts := S (conn_attempts self) |})
    isinstance_Exception
    (fun _ =>
       logger ERROR "Error connecting" ;;
       ret {| conn_name := conn_name self;
              conn_rpc_url := conn_rpc_url self;
              conn_web3 := None;
              conn_attempts := S (conn_attempts self) |}).

Definition BlockchainConnector_init (name rpc_url : pyval)
  : Py connector_object :=
  connect {| conn_name := name; conn_rpc_url := rpc_url;
             conn_web3 := None; conn_attempts := O |}.

Definition is_up (self : connector_object) : bool :=
  match conn_web3 self with
  | Some w => is_connected w
  | None => false
  end.

Definition get_contract (self : connector_object) (address : pyval)
  : Py (connector_object * option contract_object) :=
  self' <- (if is_up self then ret self
            else
              logger WARNING "Not connected, attempting to reconnect." ;;
              connect self) ;;
  match conn_web3 self' with
  | None => ret (self', None)
  | Some _ =>
      checksum_address <- lift (to_checksum_address address) ;;
      ret (self', Some {| contract_address := checksum_address |})
  end.

Definition _initialize_contract (connector : connector_object)
    (config : pyval) : Py (connector_object * contract_object) :=
  contract_address <- lift (subscript config "bridge_contract_address") ;;
  logger INFO "Initializing bridge contract" ;;
  r <- get_contract connector contract_address ;;
  match snd r with
  | None => raise RuntimeError
  | Some contract => ret (fst r, contract)
  end.

(** [isinstance(start_block_config, int)] holds for [bool] too; the block
    number is then 0 or 1. *)
Definition _get_initial_start_block (connector : connector_object)
    (config : pyval) : Py Z :=
  listener <- lift (subscript config "listener") ;;
  start_block_config <- lift (subscript listener "start_block") ;;
  if py_eq start_block_config (PyStr "latest") then
    match conn_web3 connector with
    | Some w => eth_block_number w
    | None => raise AttributeError
    end
  else
    match start_block_config with
    | PyInt n => ret n
    | PyBool b => ret (if b then 1 else 0)
    | _ => raise ValueError
    end.

Definition EventScanner_init (connector : connector_object) (config : pyval)
  : Py scanner_object :=
  r <- _initialize_contract connector config ;;
  start_block <- _get_initial_start_block (fst r) config ;;
  set_last_scanned_block start_block ;;
  ret {| scanner_connector := fst r;
         scanner_config := config;
         scanner_contract := snd r |}.

Definition TransactionProcessor_init (source_chain_id : pyval)
    (dest_chain_config : pyval) : Py processor_object :=
  _ <- lift (subscript dest_chain_config "name") ;;
  logger INFO "TransactionProcessor initialized" ;;
  ret {| processor_source_chain_id := source_chain_id;
         processor_dest_chain_config := dest_chain_config |}.

Definition CrossChainDispatcher_init (validator_private_key : pyval)
  : Py CrossChainDispatcher :=
  if negb (truthy validator_private_key) then raise ValueError
  else
    account <- lift (from_key validator_private_key) ;;
    logger INFO "Dispatcher initialized" ;;
    ret account.

Definition BridgeOrchestrator_init (config : pyval) : Py orchestrator_object :=
  logger INFO "Initializing Bridge Orchestrator..." ;;
  listener <- lift (subscript config "listener") ;;
  interval <- lift (subscript listener "poll_interval_seconds") ;;
  validator <- lift (subscript config "validator") ;;
  key <- lift (method_get validator "private_key" PyNone) ;;
  if negb (truthy key) then raise ValueError
  else
    source <- lift (subscript config "source_chain") ;;
    name <- lift (subscript source "name") ;;
    rpc_url <- lift (subscript source "rpc_url") ;;
    connector <- BlockchainConnector_init name rpc_url ;;
    scanner <- EventScanner_init connector source ;;
    (* self.event_scanner.config['listener'] = config['listener'] *)
    listener' <- lift (subscript config "listener") ;;
    source' <- lift (setitem (scanner_config scanner) "listener" listener') ;;
    (* the scanner's dictionary is config['source_chain'] itself *)
    config' <- lift (setitem config "source_chain" source') ;;
    source'' <- lift (subscript config' "source_chain") ;;
    source_chain_id <- lift (subscript source'' "chain_id") ;;
    destination <- lift (subscript config' "destination_chain") ;;
    processor <- TransactionProcessor_init source_chain_id destination ;;
    validator' <- lift (subscript config' "validator") ;;
    key' <- lift (subscript validator' "private_key") ;;
    dispatcher <- CrossChainDispatcher_init key' ;;
    ret {| orchestrator_config := config';
           poll_interval := interval;
           source_connector := scanner_connector scanner;
           orchestrator_scanner :=
             {| scanner_connector := scanner_connector scanner;
                scanner_config := source';
                scanner_contract := scanner_contract scanner |};
           orchestrator_processor := processor;
           orchestrator_dispatcher := dispatcher;
           is_running := false |}.

Definition main (config : pyval) : Py unit :=
  try_except
    (orchestrator <- BridgeOrchestrator_init config ;;
     run orchestrator)
    isinstance_ValueError_or_RuntimeError
    (fun _ => logger CRITICAL "Failed to initialize orchestrator").

End Startup.

(** The dictionary [CONFIG] of the script; the arguments are what the
    environment gives. *)
Definition CONFIG (source_rpc_url bridge_contract dest_rpc_url : string)
    (private_key : pyval) : pyval :=
  PyDict
    [ ("source_chain",
       PyDict [ ("name", PyStr "Ethereum-Sepolia");
                ("chain_id", PyInt 11155111);
                ("rpc_url", PyStr source_rpc_url);
                ("bridge_contract_address", PyStr bridge_contract);
                ("confirmation_blocks", PyInt 5) ]);
      ("destination_chain",
       PyDict [ ("name", PyStr "Polygon-Mumbai");
                ("chain_id", PyInt 80001);
                ("rpc_url", PyStr dest_rpc_url) ]);
      ("listener",
       PyDict [ ("poll_interval_seconds", PyInt 10);
                ("start_block", PyStr "latest") ]);
      ("validator", PyDict [ ("private_key", private_key) ]) ].

(** ** Sample runs *)

Definition start (cursor : Z) : state := mkState cursor None 0 [] [] [].

Definition sepolia : chain_config :=
  {| chain_name := "Ethereum-Sepolia"; chain_id := 11155111;
     confirmation_blocks := 5 |}.

(** The destination entry of [CONFIG] has no confirmation depth; nothing
    reads it. *)
Definition mumbai : chain_config :=
  {| chain_name := "Polygon-Mumbai"; chain_id := 80001;
     confirmation_blocks := 0 |}.

Definition processor : TransactionProcessor :=
  {| source_chain_id := 11155111; dest_chain_config := mumbai |}.

Definition TokensLocked (tx : pyval) (block : Z) (sender : string) (dest : Z)
    (receiver : string) (amount nonce : Z) : pyval :=
  PyDict [ ("args", PyDict [ ("sender", PyStr sender);
                             ("destinationChainId", PyInt dest);
                             ("receiver", PyStr receiver);
                             ("amount", PyInt amount);
                             ("nonce", PyInt nonce) ]);
           ("event", PyStr "TokensLocked");
           ("transactionHash", tx);
           ("blockNumber", PyInt block) ].

Definition tx_hash : pyval := PyBytes [x12; xab].

(** The block number an event carries, when it carries one. *)
Definition block_of (event : pyval) : option Z :=
  match subscript event "blockNumber" with
  | Returns (PyInt b) => Some b
  | _ => None
  end.

Definition in_range (fromBlock toBlock : Z) (event : pyval) : bool :=
  match block_of event with
  | Some b => ((fromBlock <=? b) && (b <=? toBlock))%bool
  | None => false
  end.

(** A node at height [head] that serves [events] to every filter over a
    range containing their block. *)
Definition node (head : Z) (events : list pyval) : Web3 :=
  {| is_connected := true;
     block_number := fun _ => Returns head;
     create_filter := fun _ _ => Returns tt;
     get_all_entries := fun f t => Returns (filter (in_range f t) events) |}.

Definition scanner_on (w : Web3) (cfg : chain_config) : EventScanner :=
  {| connector := {| name := chain_name cfg; web3 := Some w |};
     config := cfg |}.

(** A node that lost the requested range: reading the filter raises
    [BlockNotFound]. *)
Definition pruned_node (head : Z) : Web3 :=
  {| is_connected := true;
     block_number := fun _ => Returns head;
     create_filter := fun _ _ => Returns tt;
     get_all_entries := fun _ _ => Raises BlockNotFound |}.

(** A node whose log query times out. *)
Definition slow_node (head : Z) : Web3 :=
  {| is_connected := true;
     block_number := fun _ => Returns head;
     create_filter := fun _ _ => Returns tt;
     get_all_entries := fun _ _ => Raises (OtherException "TimeoutError") |}.

(** A node that answers [BlockNotFound] to the first read of the head. *)
Definition headless_node (head : Z) : Web3 :=
  {| is_connected := true;
     block_number := fun n =>
       match n with O => Raises BlockNotFound | _ => Returns head end;
     create_filter := fun _ _ => Returns tt;
     get_all_entries := fun _ _ => Returns [] |}.

(** A validator account whose signing fails, and one that signs. *)
Definition broken_signer : CrossChainDispatcher :=
  {| signHash := fun _ => Raises ValueError |}.

Definition signer : CrossChainDispatcher :=
  {| signHash := fun h => Returns (h ++ [x01])%list |}.

(** A relayer that cannot be reached, and one that answers 503 to the first
    request and 200 afterwards. *)
Definition unreachable_relayer (n : nat) (body : pyval) : outcome Z :=
  Raises (RequestException RequestsConnectionError).

Definition recovering_relayer (n : nat) (body : pyval) : outcome Z :=
  match n with
  | O => Returns 503
  | _ => Returns 200
  end.

(** A stand-in for the hash function in sample runs. *)
Definition sample_hash (message : string) : list byte :=
  list_byte_of_string message.

Definition payload_7 : list (string * pyval) :=
  [ ("sourceTransactionHash", PyStr "12ab");
    ("sourceBlockNumber", PyInt 110);
    ("sender", PyStr "0xA1");
    ("receiver", PyStr "0xB2");
    ("amount", PyInt 5);
    ("nonce", PyInt 7);
    ("sourceChainId", PyInt 11155111);
    ("destinationChainId", PyInt 80001) ].

(** The same payload with two fields inserted in the other order. *)
Definition payload_7_reordered : list (string * pyval) :=
  [ ("sourceBlockNumber", PyInt 110);
    ("sourceTransactionHash", PyStr "12ab");
    ("sender", PyStr "0xA1");
    ("receiver", PyStr "0xB2");
    ("amount", PyInt 5);
    ("nonce", PyInt 7);
    ("sourceChainId", PyInt 11155111);
    ("destinationChainId", PyInt 80001) ].

(** A node whose head rises by one block at every read. *)
Definition rising_node (head : Z) (events : list pyval) : Web3 :=
  {| is_connected := true;
     block_number := fun n => Returns (head + Z.of_nat n);
     create_filter := fun _ _ => Returns tt;
     get_all_entries := fun f t => Returns (filter (in_range f t) events) |}.

Definition two_locks : list pyval :=
  [ TokensLocked tx_hash 250 "0xA1" 80001 "0xB2" 5 7;
    TokensLocked tx_hash 296 "0xA1" 80001 "0xB2" 1 8 ].

(** A rising node that has lost the range starting at block [lost]. *)
Definition forgetful_node (head lost : Z) (events : list pyval) : Web3 :=
  {| is_connected := true;
     block_number := fun n => Returns (head + Z.of_nat n);
     create_filter := fun _ _ => Returns tt;
     get_all_entries := fun f t =>
       if f =? lost then Raises BlockNotFound
       else Returns (filter (in_range f t) events) |}.

(** A node on which the task is cancelled while the head is read. *)
Definition cancelled_node : Web3 :=
  {| is_connected := true;
     block_number := fun _ => Raises CancelledError;
     create_filter := fun _ _ => Returns tt;
     get_all_entries := fun _ _ => Returns [] |}.

(** The orchestrator of the script on a given node, with a given signer. *)
Definition bridge (w : Web3) (account : CrossChainDispatcher)
  : BridgeOrchestrator :=
  {| event_scanner := scanner_on w sepolia;
     tx_processor := processor;
     dispatcher := account |}.

(** Events of the batches of the sample runs. *)
Definition lock_for_elsewhere : pyval :=
  TokensLocked tx_hash 240 "0xA1" 80002 "0xB2" 3 6.

Definition lock_with_text_hash : pyval :=
  TokensLocked (PyStr "0x12ab") 250 "0xA1" 80001 "0xB2" 5 7.

Definition lock_after : pyval :=
  TokensLocked tx_hash 260 "0xA1" 80001 "0xB2" 1 8.

(** An environment for sample runs of the construction: every endpoint
    leads to the same node, addresses are taken as they are, every key
    gives the sample signer. *)
Definition sample_provider (n : nat) (rpc_url : pyval) : outcome Web3 :=
  Returns (node 300 []).

Definition sample_chain_id (w : Web3) : outcome Z := Returns 11155111.

Definition sample_checksum (address : pyval) : outcome string :=
  match address with
  | PyStr a => Returns a
  | _ => Raises ValueError
  end.

Definition sample_from_key (key : pyval) : outcome CrossChainDispatcher :=
  Returns signer.

Definition sample_run (self : orchestrator_object) : Py unit :=
  logger INFO "Bridge Event Listener service starting.".

(** An endpoint nobody answers on. *)
Definition dead_provider (n : nat) (rpc_url : pyval) : outcome Web3 :=
  Raises ConnectionError.

Definition sample_CONFIG (private_key : pyval) : pyval :=
  CONFIG "https://rpc.sepolia.org"
    "0x7a250d5630B4cF539739dF2C5dAcb4c659F2488D"
    "https://rpc-mumbai.maticvigil.com" private_key.

(** The source-chain entry of [CONFIG]. *)
Definition sample_source_chain : list (string * pyval) :=
  [ ("name", PyStr "Ethereum-Sepolia");
    ("chain_id", PyInt 11155111);
    ("rpc_url", PyStr "https://rpc.sepolia.org");
    ("bridge_contract_address",
     PyStr "0x7a250d5630B4cF539739dF2C5dAcb4c659F2488D");
    ("confirmation_blocks", PyInt 5) ].

Definition sample_connector : connector_object :=
  {| conn_name := PyStr "Ethereum-Sepolia";
     conn_rpc_url := PyStr "https://rpc.sepolia.org";
     conn_web3 := Some (node 300 []);
     conn_attempts := 1 |}.

(** A node on which the operator interrupts the service during the
    first read of the head. *)
Definition interrupted_node : Web3 :=
  {| is_connected := true;
     block_number := fun _ => Raises KeyboardInterrupt;
     create_filter := fun _ _ => Returns tt;
     get_all_entries := fun _ _ => Returns [] |}.

(** A node that is not reachable. *)
Definition unreachable_node : Web3 :=
  {| is_connected := false;
     block_number := fun _ => Raises ConnectionError;
     create_filter := fun _ _ => Raises ConnectionError;
     get_all_entries := fun _ _ => Raises ConnectionError |}.

(** [CONFIG] with the listener entry where the scanner looks for it. *)
Definition repaired_CONFIG (private_key : pyval) : pyval :=
  PyDict
    [ ("source_chain",
       PyDict (sample_source_chain
                 ++ [ ("listener",
                       PyDict [ ("poll_interval_seconds", PyInt 10);
                                ("start_block", PyStr "latest") ]) ]));
      ("destination_chain",
       PyDict [ ("name", PyStr "Polygon-Mumbai");
                ("chain_id", PyInt 80001);
                ("rpc_url", PyStr "https://rpc-mumbai.maticvigil.com") ]);
      ("listener",
       PyDict [ ("poll_interval_seconds", PyInt 10);
                ("start_block", PyStr "latest") ]);
      ("validator", PyDict [ ("private_key", private_key) ]) ].

(** ** Vocabulary of the statements *)

(** The contract of the log query of the connector: a filter over
    [fromBlock, toBlock] yields entries of these blocks only. *)
Definition serves_requested_range (w : Web3) : Prop :=
  forall fromBlock toBlock events,
    get_all_entries w fromBlock toBlock = Returns events ->
    Forall (fun ev => forall b, block_of ev = Some b ->
                                fromBlock <= b <= toBlock) events.

(** The [try] body of a scan started in state [s] raises [e]. *)
Definition scan_fails (self : EventScanner) (w : Web3) (s : state) (e : exn)
  : Prop :=
  exists s1,
    scan_body self w (snd (set_confirmation_depth None s)) = (Raises e, s1).

(** An event the logging loop of the scanner can print: [event['args']]
    exists. *)
Definition has_args (event : pyval) : bool :=
  match subscript event "args" with
  | Returns _ => true
  | Raises _ => false
  end.

(** The body of the request [_simulate_api_call] makes for a payload and
    its signature. *)
Definition attestation (payload : pyval) (signature : list byte) : pyval :=
  PyDict [ ("attestation",
            PyDict [ ("payload", payload);
                     ("signature", PyStr (hex_of_bytes signature)) ]) ].

(** An event with readable arguments whose destination is not the one the
    processor is configured for. *)
Definition meant_elsewhere (p : TransactionProcessor) (event : pyval) : bool :=
  match subscript event "args" with
  | Returns args =>
      match subscript args "destinationChainId" with
      | Returns dest => py_ne dest (PyInt (chain_id (dest_chain_config p)))
      | Raises _ => false
      end
  | Raises _ => false
  end.

(** An event for the configured destination whose [transactionHash] is
    there but is not a byte string. *)
Definition has_text_hash (p : TransactionProcessor) (event : pyval) : bool :=
  match subscript event "args" with
  | Returns args =>
      match subscript args "destinationChainId" with
      | Returns dest =>
          py_eq dest (PyInt (chain_id (dest_chain_config p))) &&
          match subscript event "transactionHash" with
          | Returns (PyBytes _) => false
          | Returns _ => true
          | Raises _ => false
          end
      | Raises _ => false
      end
  | Raises _ => false
  end.

(** A [TokensLocked] log as the ABI types it: a hash of bytes, addresses as
    text, integers. *)
Record lock : Type := {
  lock_tx : list byte;
  lock_block : Z;
  lock_sender : string;
  lock_receiver : string;
  lock_amount : Z;
  lock_nonce : Z
}.

Definition event_of (dest : Z) (l : lock) : pyval :=
  TokensLocked (PyBytes (lock_tx l)) (lock_block l) (lock_sender l) dest
    (lock_receiver l) (lock_amount l) (lock_nonce l).

(** The payload the processor builds for such a log. *)
Definition payload_items (p : TransactionProcessor) (l : lock)
  : list (string * pyval) :=
  [ ("sourceTransactionHash", PyStr (hex_of_bytes (lock_tx l)));
    ("sourceBlockNumber", PyInt (lock_block l));
    ("sender", PyStr (lock_sender l));
    ("receiver", PyStr (lock_receiver l));
    ("amount", PyInt (lock_amount l));
    ("nonce", PyInt (lock_nonce l));
    ("sourceChainId", PyInt (source_chain_id p));
    ("destinationChainId", PyInt (chain_id (dest_chain_config p))) ].

Definition payload_of (p : TransactionProcessor) (l : lock) : pyval :=
  PyDict (payload_items p l).

(** The text [json_dumps] gives for a value it can encode. *)
Definition canonical (v : pyval) : string :=
  match json_dumps v with
  | Returns message => message
  | Raises _ => ""
  end.

(** Two logs for the configured destination. *)
Definition two_transfers : list lock :=
  [ {| lock_tx := [x12; xab]; lock_block := 250; lock_sender := "0xA1";
       lock_receiver := "0xB2"; lock_amount := 5; lock_nonce := 7 |};
    {| lock_tx := [x34; xcd]; lock_block := 260; lock_sender := "0xC3";
       lock_receiver := "0xD4"; lock_amount := 1; lock_nonce := 8 |} ].

(** A computation that ends with an exception in every state. *)
Definition never_returns {A} (m : Py A) : Prop :=
  forall s, exists e s1, m s = (Raises e, s1).

(** * Properties *)

(** ** The logging loop of the scanner *)

Lemma log_event_details_frame (events : list pyval) (s : state) :
  last_scanned_block (snd (for_each events log_event_details s))
    = last_scanned_block s /\
  confirmation_depth (snd (for_each events log_event_details s))
    = confirmation_depth s /\
  head_reads (snd (for_each events log_event_details s)) = head_reads s /\
  filters (snd (for_each events log_event_details s)) = filters s.
Proof.
  revert s.
  induction events as [| ev events IH]; intro s; simpl.
  - repeat split.
  - unfold bind, log_event_details, lift, logger.
    destruct (subscript ev "args") as [args | e]; simpl.
    + destruct (IH (mkState (last_scanned_block s) (confirmation_depth s)
                      (head_reads s) (filters s) (posts s)
                      (logged s ++ [(INFO, "  - Event details")])))
        as (H1 & H2 & H3 & H4).
      simpl in *. auto.
    + repeat split.
Qed.

Lemma log_event_details_raises (events : list pyval) (s : state) (e : exn) :
  fst (for_each events log_event_details s) = Raises e ->
  isinstance_KeyError_or_TypeError e = true.
Proof.
  revert s.
  induction events as [| ev events IH]; intro s; simpl.
  - discriminate.
  - unfold bind, log_event_details, lift, logger.
    destruct ev; simpl; try (intro H; injection H as <-; reflexivity).
    destruct (dict_get "args" d); simpl.
    + apply IH.
    + intro H; injection H as <-; reflexivity.
Qed.

Lemma log_new_events_frame (events : list pyval) (s : state) :
  last_scanned_block (snd (log_new_events events s)) = last_scanned_block s /\
  confirmation_depth (snd (log_new_events events s)) = confirmation_depth s /\
  head_reads (snd (log_new_events events s)) = head_reads s /\
  filters (snd (log_new_events events s)) = filters s.
Proof.
  unfold log_new_events.
  destruct events as [| ev events].
  - repeat split.
  - unfold bind at 1, logger at 1.
    match goal with
    | |- context [for_each ?l log_event_details ?st] =>
        exact (log_event_details_frame l st)
    end.
Qed.

Lemma log_new_events_raises (events : list pyval) (s : state) (e : exn) :
  fst (log_new_events events s) = Raises e ->
  isinstance_KeyError_or_TypeError e = true.
Proof.
  unfold log_new_events.
  destruct events as [| ev events].
  - discriminate.
  - unfold bind at 1, logger at 1.
    apply log_event_details_raises.
Qed.

(** What the [try] body leaves behind when it raises: the cursor is where it
    was, because the assignment to [last_scanned_block] is the last
    statement of the body; the head was read once; and
    [confirmation_depth] is bound if that read returned. *)
Lemma scan_body_raises (self : EventScanner) (w : Web3) (s s1 : state)
    (e : exn) :
  scan_body self w s = (Raises e, s1) ->
  last_scanned_block s1 = last_scanned_block s /\
  head_reads s1 = S (head_reads s) /\
  (forall head, block_number w (head_reads s) = Returns head ->
     confirmation_depth s1 = Some (confirmation_blocks (config self))) /\
  (block_number w (head_reads s) = Raises e ->
     confirmation_depth s1 = confirmation_depth s).
Proof.
  unfold scan_body, bind, eth_block_number, set_confirmation_depth,
    get_confirmation_depth, get_last_scanned_block, logger,
    TokensLocked_create_filter, lift, ret, set_last_scanned_block.
  simpl.
  destruct (block_number w (head_reads s)) as [latest | e0]; simpl.
  2: { intro H; injection H as <- <-; simpl.
       repeat split; auto; discriminate. }
  destruct (last_scanned_block s >=? latest - confirmation_blocks (config self));
    simpl.
  1: discriminate.
  destruct (create_filter w _ _) as [[] | e0]; simpl.
  2: { intro H; injection H as <- <-; simpl.
       repeat split; auto; discriminate. }
  destruct (get_all_entries w _ _) as [events | e0]; simpl.
  2: { intro H; injection H as <- <-; simpl.
       repeat split; auto; discriminate. }
  match goal with
  | |- context [log_new_events ?l ?st] =>
      pose proof (log_new_events_frame l st) as (Hc & Hd & Hr & _);
      destruct (log_new_events l st) as [[[] | e1] s2]
  end; simpl in *.
  - discriminate.
  - intro H; injection H as <- <-.
    repeat split; auto; discriminate.
Qed.

(** What a normal return of the [try] body means: either there was nothing
    new, or the filter over [cursor + 1, head - depth] was created and
    read, and the cursor moved to its upper end. *)
Lemma scan_body_returns (self : EventScanner) (w : Web3) (s s1 : state)
    (events : list pyval) :
  scan_body self w s = (Returns events, s1) ->
  exists head,
    block_number w (head_reads s) = Returns head /\
    let to_block := head - confirmation_blocks (config self) in
    let from_block := last_scanned_block s + 1 in
    (last_scanned_block s >= to_block /\ events = [] /\
     last_scanned_block s1 = last_scanned_block s /\ filters s1 = filters s)
    \/
    (last_scanned_block s < to_block /\
     create_filter w from_block to_block = Returns tt /\
     get_all_entries w from_block to_block = Returns events /\
     last_scanned_block s1 = to_block /\
     filters s1 = (filters s ++ [(from_block, to_block)])%list).
Proof.
  unfold scan_body, bind, eth_block_number, set_confirmation_depth,
    get_confirmation_depth, get_last_scanned_block, logger,
    TokensLocked_create_filter, lift, ret, set_last_scanned_block.
  simpl.
  destruct (block_number w (head_reads s)) as [head | e0]; simpl.
  2: discriminate.
  intro H. exists head. split; [reflexivity |].
  destruct (Z.geb_spec (last_scanned_block s)
              (head - confirmation_blocks (config self))) as [Hge | Hlt];
    simpl in H.
  - left. injection H as <- <-. simpl. repeat split; auto. lia.
  - right.
    destruct (create_filter w _ _) as [[] | e0]; simpl in H.
    2: discriminate.
    destruct (get_all_entries w _ _) as [evs | e0]; simpl in H.
    2: discriminate.
    match type of H with
    | context [log_new_events ?l ?st] =>
        pose proof (log_new_events_frame l st) as (_ & _ & _ & Hf);
        destruct (log_new_events l st) as [[[] | e1] s2]
    end; simpl in *.
    2: discriminate.
    injection H as <- <-. simpl. repeat split; auto.
Qed.

(** When the connector is up, [scan_for_events] is the [try] statement run
    in a fresh frame. *)
Lemma scan_for_events_connected (self : EventScanner) (w : Web3) (s : state) :
  web3 (connector self) = Some w ->
  is_connected w = true ->
  scan_for_events self s =
  try_except (scan_body self w) isinstance_Exception (scan_handler w)
    (snd (set_confirmation_depth None s)).
Proof.
  intros Hw Hc. unfold scan_for_events, bind. simpl.
  rewrite Hw, Hc. reflexivity.
Qed.

(** When it is not, nothing is asked of the node. *)
Lemma scan_for_events_unavailable (self : EventScanner) (s : state) :
  (web3 (connector self) = None \/
   exists w, web3 (connector self) = Some w /\ is_connected w = false) ->
  fst (scan_for_events self s) = Returns [] /\
  last_scanned_block (snd (scan_for_events self s)) = last_scanned_block s /\
  filters (snd (scan_for_events self s)) = filters s /\
  head_reads (snd (scan_for_events self s)) = head_reads s.
Proof.
  intros [Hn | (w & Hw & Hc)]; unfold scan_for_events, bind; simpl.
  - rewrite Hn. simpl. repeat split.
  - rewrite Hw, Hc. simpl. repeat split.
Qed.

(** Both handlers of the scanner answer with the empty list. *)
Lemma scan_handler_returns (w : Web3) (e : exn) (s s1 : state)
    (events : list pyval) :
  scan_handler w e s = (Returns events, s1) -> events = [].
Proof.
  unfold scan_handler, bind, logger, eth_block_number,
    get_confirmation_depth, set_last_scanned_block, ret.
  destruct (isinstance_BlockNotFound e); simpl.
  - destruct (block_number w (head_reads s)); simpl; [| discriminate].
    destruct (confirmation_depth s); simpl; [| discriminate].
    intro H; injection H as <- _; reflexivity.
  - intro H; injection H as <- _; reflexivity.
Qed.

(** ** C4 *)

(** C4: on a poll where the cursor is at least [head - confirmation_depth],
    [scan_for_events] returns the empty list and [last_scanned_block] is
    unchanged. *)
Theorem scan_nothing_new (self : EventScanner) (w : Web3) (s : state)
    (head : Z) :
  web3 (connector self) = Some w ->
  block_number w (head_reads s) = Returns head ->
  last_scanned_block s >= head - confirmation_blocks (config self) ->
  fst (scan_for_events self s) = Returns [] /\
  last_scanned_block (snd (scan_for_events self s)) = last_scanned_block s.
Proof.
  intros Hw Hh Hge.
  destruct (is_connected w) eqn:Hc.
  - rewrite (scan_for_events_connected self w s Hw Hc).
    unfold try_except, scan_body, bind, eth_block_number,
      set_confirmation_depth, get_confirmation_depth,
      get_last_scanned_block, logger, ret.
    simpl. rewrite Hh. simpl.
    destruct (Z.geb_spec (last_scanned_block s)
                (head - confirmation_blocks (config self))) as [_ | Hlt].
    + simpl. split; reflexivity.
    + lia.
  - destruct (scan_for_events_unavailable self s) as (H1 & H2 & _).
    + right. exists w. auto.
    + auto.
Qed.

Lemma scan_nothing_new_witness :
  fst (scan_for_events (scanner_on (node 104 []) sepolia) (start 100))
    = Returns [] /\
  last_scanned_block
    (snd (scan_for_events (scanner_on (node 104 []) sepolia) (start 100)))
    = last_scanned_block (start 100).
Proof.
  apply (scan_nothing_new (scanner_on (node 104 []) sepolia) (node 104 [])
           (start 100) 104).
  - reflexivity.
  - reflexivity.
  - simpl. lia.
Defined.

(** ** C1 *)

Lemma node_serves_requested_range (head : Z) (events : list pyval) :
  serves_requested_range (node head events).
Proof.
  intros f t evs H. simpl in H. injection H as <-.
  apply Forall_forall. intros ev Hin b Hb.
  apply filter_In in Hin. destruct Hin as [_ Hr].
  unfold in_range in Hr. rewrite Hb in Hr.
  apply andb_prop in Hr. destruct Hr as [H1 H2].
  apply Z.leb_le in H1. apply Z.leb_le in H2. lia.
Qed.

(** C1: a call of [scan_for_events] that returns never returns an event of
    a block above [head - confirmation_depth], [head] being the height
    read at the start of the scan.  The scanner passes that bound as
    [toBlock]; that the node serves only the requested range is the
    contract of the connector. *)
Theorem scan_respects_confirmation_depth (self : EventScanner) (w : Web3)
    (s s' : state) (head : Z) (events : list pyval) :
  web3 (connector self) = Some w ->
  serves_requested_range w ->
  block_number w (head_reads s) = Returns head ->
  scan_for_events self s = (Returns events, s') ->
  Forall (fun ev => forall b, block_of ev = Some b ->
                              b <= head - confirmation_blocks (config self))
         events.
Proof.
  intros Hw Hrange Hhead Hscan.
  destruct (is_connected w) eqn:Hc.
  - rewrite (scan_for_events_connected self w s Hw Hc) in Hscan.
    unfold try_except in Hscan.
    destruct (scan_body self w (snd (set_confirmation_depth None s)))
      as [[evs | e] s1] eqn:Hbody.
    + injection Hscan as -> ->.
      apply scan_body_returns in Hbody.
      destruct Hbody as (head' & Hh' & Hcases). simpl in Hh'.
      rewrite Hhead in Hh'. injection Hh' as <-.
      destruct Hcases as [(_ & -> & _) | (_ & _ & Hget & _)].
      * constructor.
      * apply Hrange in Hget.
        eapply Forall_impl; [| exact Hget].
        simpl. intros ev Hev b Hb. apply Hev in Hb. lia.
    + destruct (isinstance_Exception e).
      * apply scan_handler_returns in Hscan. subst events. constructor.
      * discriminate.
  - destruct (scan_for_events_unavailable self s) as (H1 & _).
    + right. exists w. auto.
    + rewrite Hscan in H1. simpl in H1. injection H1 as ->. constructor.
Qed.

Lemma scan_respects_confirmation_depth_witness :
  Forall (fun ev => forall b, block_of ev = Some b ->
                              b <= 120 - confirmation_blocks sepolia)
    [TokensLocked tx_hash 110 "0xA1" 80001 "0xB2" 5 7].
Proof.
  apply (scan_respects_confirmation_depth
           (scanner_on
              (node 120 [TokensLocked tx_hash 110 "0xA1" 80001 "0xB2" 5 7;
                         TokensLocked tx_hash 117 "0xA1" 80001 "0xB2" 9 8])
              sepolia)
           (node 120 [TokensLocked tx_hash 110 "0xA1" 80001 "0xB2" 5 7;
                      TokensLocked tx_hash 117 "0xA1" 80001 "0xB2" 9 8])
           (start 100)
           (mkState 115 (Some 5) 1 [(101, 115)] []
              [(INFO, "Scanning...");
               (WARNING, "Found new 'TokensLocked' event(s)!");
               (INFO, "  - Event details")])).
  - reflexivity.
  - apply node_serves_requested_range.
  - reflexivity.
  - vm_compute. reflexivity.
Defined.

(** ** C6 *)

(** C6: when the connector is unavailable, or the [try] body fails with an
    error other than [BlockNotFound], [scan_for_events] returns the empty
    list and [last_scanned_block] keeps its value. *)
Theorem scan_failure_keeps_cursor (self : EventScanner) (s : state) :
  (web3 (connector self) = None \/
   (exists w, web3 (connector self) = Some w /\ is_connected w = false) \/
   (exists w e, web3 (connector self) = Some w /\ is_connected w = true /\
                scan_fails self w s e /\
                isinstance_Exception e = true /\
                isinstance_BlockNotFound e = false)) ->
  fst (scan_for_events self s) = Returns [] /\
  last_scanned_block (snd (scan_for_events self s)) = last_scanned_block s.
Proof.
  intros [Hn | [Hd | (w & e & Hw & Hc & (s1 & Hbody) & He & Hb)]].
  - destruct (scan_for_events_unavailable self s) as (H1 & H2 & _); auto.
  - destruct (scan_for_events_unavailable self s) as (H1 & H2 & _); auto.
  - rewrite (scan_for_events_connected self w s Hw Hc).
    unfold try_except. rewrite Hbody, He.
    apply scan_body_raises in Hbody. destruct Hbody as (Hcur & _).
    unfold scan_handler. rewrite Hb.
    unfold bind, logger, ret. simpl in *. auto.
Qed.

Lemma scan_failure_keeps_cursor_witness :
  fst (scan_for_events (scanner_on (slow_node 120) sepolia) (start 100))
    = Returns [] /\
  last_scanned_block
    (snd (scan_for_events (scanner_on (slow_node 120) sepolia) (start 100)))
    = last_scanned_block (start 100).
Proof.
  apply (scan_failure_keeps_cursor (scanner_on (slow_node 120) sepolia)
           (start 100)).
  right. right.
  exists (slow_node 120), (OtherException "TimeoutError").
  split; [reflexivity |].
  split; [reflexivity |].
  split.
  - eexists. vm_compute. reflexivity.
  - split; reflexivity.
Defined.

(** ** C2 *)

(** C2, as the specification has it, fails: with the head at 7 and depth 5
    the rewound cursor is -3, not [max 0 (7 - 2 * 5)]. *)
Lemma rewind_is_not_clamped :
  fst (scan_for_events (scanner_on (pruned_node 7) sepolia) (start 0))
    = Returns [] /\
  last_scanned_block
    (snd (scan_for_events (scanner_on (pruned_node 7) sepolia) (start 0)))
    = -3 /\
  last_scanned_block
    (snd (scan_for_events (scanner_on (pruned_node 7) sepolia) (start 0)))
    <> Z.max 0 (7 - 2 * confirmation_blocks sepolia).
Proof.
  vm_compute. repeat split; discriminate.
Qed.

(** C2 (amended): when the head was read and the log query then fails with
    [BlockNotFound], and the handler reads the head again as [h], the scan
    returns the empty list, raises nothing, and leaves the cursor at
    [h - 2 * confirmation_depth], which is [max 0 (h - 2 * depth)] whenever
    that difference is not negative. *)
Theorem scan_rewinds_on_BlockNotFound (self : EventScanner) (w : Web3)
    (s : state) (head h : Z) :
  web3 (connector self) = Some w ->
  is_connected w = true ->
  block_number w (head_reads s) = Returns head ->
  scan_fails self w s BlockNotFound ->
  block_number w (S (head_reads s)) = Returns h ->
  fst (scan_for_events self s) = Returns [] /\
  last_scanned_block (snd (scan_for_events self s))
    = h - 2 * confirmation_blocks (config self) /\
  (0 <= h - 2 * confirmation_blocks (config self) ->
   last_scanned_block (snd (scan_for_events self s))
     = Z.max 0 (h - 2 * confirmation_blocks (config self))).
Proof.
  intros Hw Hc Hhead (s1 & Hbody) Hh.
  rewrite (scan_for_events_connected self w s Hw Hc).
  unfold try_except. rewrite Hbody. cbn -[Z.mul Z.sub Z.max].
  apply scan_body_raises in Hbody.
  destruct Hbody as (_ & Hreads & Hdepth & _).
  simpl in Hreads, Hdepth. specialize (Hdepth head Hhead).
  unfold scan_handler, bind, logger, eth_block_number,
    get_confirmation_depth, set_last_scanned_block, ret.
  cbn -[Z.mul Z.sub Z.max]. rewrite Hreads, Hh.
  cbn -[Z.mul Z.sub Z.max]. rewrite Hdepth.
  cbn -[Z.mul Z.sub Z.max].
  split; [reflexivity |]. split; [lia | intro; lia].
Qed.

Lemma scan_rewinds_on_BlockNotFound_witness :
  fst (scan_for_events (scanner_on (pruned_node 200) sepolia) (start 100))
    = Returns [] /\
  last_scanned_block
    (snd (scan_for_events (scanner_on (pruned_node 200) sepolia) (start 100)))
    = 200 - 2 * confirmation_blocks sepolia /\
  (0 <= 200 - 2 * confirmation_blocks sepolia ->
   last_scanned_block
     (snd (scan_for_events (scanner_on (pruned_node 200) sepolia) (start 100)))
     = Z.max 0 (200 - 2 * confirmation_blocks sepolia)).
Proof.
  apply (scan_rewinds_on_BlockNotFound (scanner_on (pruned_node 200) sepolia)
           (pruned_node 200) (start 100) 200 200).
  - reflexivity.
  - reflexivity.
  - reflexivity.
  - eexists. vm_compute. reflexivity.
  - reflexivity.
Defined.

(** The handler reads [confirmation_depth] whether or not the body bound
    it: a [BlockNotFound] from the first read of the head ends the scan
    with [UnboundLocalError]. *)
Lemma rewind_with_unbound_depth :
  fst (scan_for_events (scanner_on (headless_node 200) sepolia) (start 100))
    = Raises (UnboundLocalError "confirmation_depth") /\
  last_scanned_block
    (snd (scan_for_events (scanner_on (headless_node 200) sepolia)
            (start 100)))
    = 100.
Proof.
  vm_compute. split; reflexivity.
Qed.

(** ** The processor *)

Lemma subscript_raises (v : pyval) (k : string) (e : exn) :
  subscript v k = Raises e -> isinstance_KeyError_or_TypeError e = true.
Proof.
  unfold subscript.
  destruct v; try (intro H; injection H as <-; reflexivity).
  destruct (dict_get k d); [discriminate |].
  intro H; injection H as <-; reflexivity.
Qed.

Lemma method_hex_raises (v : pyval) (e : exn) :
  method_hex v = Raises e -> e = AttributeError.
Proof.
  destruct v; simpl; intro H; try discriminate; injection H as <-;
    reflexivity.
Qed.

(** One step of a proof about [process_event]: name the outcome of the next
    field access and close the branch where it fails. *)
Ltac next_field :=
  match goal with
  | |- context [subscript ?v ?k] =>
      let x := fresh "x" in
      let e := fresh "e" in
      let E := fresh "E" in
      destruct (subscript v k) as [x | e] eqn:E; simpl;
      [| try (apply subscript_raises in E; rewrite E; simpl;
              first [discriminate | reflexivity])]
  end.

(** A payload comes from the second branch only, and is built from the
    fields of the event and the configured source chain. *)
Lemma process_event_payload (self : TransactionProcessor) (event : pyval)
    (s : state) (payload : pyval) :
  fst (process_event self event s) = Returns (Some payload) ->
  exists args dest tx block sender receiver amount nonce,
    subscript event "args" = Returns args /\
    subscript args "destinationChainId" = Returns dest /\
    py_ne dest (PyInt (chain_id (dest_chain_config self))) = false /\
    payload =
      PyDict [ ("sourceTransactionHash", tx);
               ("sourceBlockNumber", block);
               ("sender", sender);
               ("receiver", receiver);
               ("amount", amount);
               ("nonce", nonce);
               ("sourceChainId", PyInt (source_chain_id self));
               ("destinationChainId", dest) ].
Proof.
  unfold process_event, try_except, bind, lift, logger, ret. simpl.
  next_field. next_field.
  destruct (py_ne x0 (PyInt (chain_id (dest_chain_config self)))) eqn:Hne;
    simpl.
  - next_field. discriminate.
  - next_field.
    destruct (method_hex x1) as [tx | e] eqn:Ehex; simpl.
    2: { apply method_hex_raises in Ehex. subst e. discriminate. }
    next_field. next_field. next_field. next_field. next_field.
    intro H. injection H as <-.
    exists x, x0, tx, x2, x3, x4, x5, x6. auto.
Qed.

(** The one exception [process_event] lets through. *)
Lemma process_event_raises (self : TransactionProcessor) (event : pyval)
    (s : state) (e : exn) :
  fst (process_event self event s) = Raises e -> e = AttributeError.
Proof.
  unfold process_event, try_except, bind, lift, logger, ret. simpl.
  next_field. next_field.
  destruct (py_ne x0 (PyInt (chain_id (dest_chain_config self)))) eqn:Hne;
    simpl.
  - next_field. discriminate.
  - next_field.
    destruct (method_hex x1) as [tx | e1] eqn:Ehex; simpl.
    2: { apply method_hex_raises in Ehex. subst e1. simpl.
         intro H; injection H as <-; reflexivity. }
    next_field. next_field. next_field. next_field. next_field.
    discriminate.
Qed.

(** ** C5 *)

(** C5: an event whose [destinationChainId] differs from the configured
    destination chain id makes [process_event] return [None]: no payload. *)
Theorem process_event_other_destination (self : TransactionProcessor)
    (event args dest : pyval) (s : state) :
  subscript event "args" = Returns args ->
  subscript args "destinationChainId" = Returns dest ->
  py_ne dest (PyInt (chain_id (dest_chain_config self))) = true ->
  fst (process_event self event s) = Returns None.
Proof.
  intros Hargs Hdest Hne.
  unfold process_event, try_except, bind, lift, logger, ret. simpl.
  rewrite Hargs. simpl. rewrite Hdest. simpl. rewrite Hne. simpl.
  next_field. reflexivity.
Qed.

Lemma process_event_other_destination_witness :
  fst (process_event processor
         (TokensLocked tx_hash 110 "0xA1" 80002 "0xB2" 5 7) (start 115))
    = Returns None.
Proof.
  apply (process_event_other_destination processor
           (TokensLocked tx_hash 110 "0xA1" 80002 "0xB2" 5 7)
           (PyDict [ ("sender", PyStr "0xA1");
                     ("destinationChainId", PyInt 80002);
                     ("receiver", PyStr "0xB2");
                     ("amount", PyInt 5);
                     ("nonce", PyInt 7) ])
           (PyInt 80002) (start 115)).
  - reflexivity.
  - reflexivity.
  - reflexivity.
Defined.

(** ** C10 *)

(** C10: a payload returned by [process_event] carries the configured source
    chain id as [sourceChainId], and as [destinationChainId] a value equal
    ([==]) to the configured destination chain id; an integer there is that
    very id. *)
Theorem process_event_chain_ids (self : TransactionProcessor)
    (event payload : pyval) (s : state) :
  fst (process_event self event s) = Returns (Some payload) ->
  subscript payload "sourceChainId" = Returns (PyInt (source_chain_id self)) /\
  exists dest,
    subscript payload "destinationChainId" = Returns dest /\
    py_eq dest (PyInt (chain_id (dest_chain_config self))) = true /\
    (forall n, dest = PyInt n -> n = chain_id (dest_chain_config self)).
Proof.
  intro H. apply process_event_payload in H.
  destruct H as (args & dest & tx & block & sender & receiver & amount &
                 nonce & _ & _ & Hne & ->).
  split; [reflexivity |].
  exists dest. split; [reflexivity |].
  unfold py_ne in Hne. apply negb_false_iff in Hne.
  split; [exact Hne |].
  intros n ->. simpl in Hne. apply Z.eqb_eq in Hne. exact Hne.
Qed.

Lemma process_event_chain_ids_witness :
  subscript
    (PyDict [ ("sourceTransactionHash", PyStr "12ab");
              ("sourceBlockNumber", PyInt 110);
              ("sender", PyStr "0xA1");
              ("receiver", PyStr "0xB2");
              ("amount", PyInt 5);
              ("nonce", PyInt 7);
              ("sourceChainId", PyInt 11155111);
              ("destinationChainId", PyInt 80001) ])
    "sourceChainId" = Returns (PyInt (source_chain_id processor)) /\
  exists dest,
    subscript
      (PyDict [ ("sourceTransactionHash", PyStr "12ab");
                ("sourceBlockNumber", PyInt 110);
                ("sender", PyStr "0xA1");
                ("receiver", PyStr "0xB2");
                ("amount", PyInt 5);
                ("nonce", PyInt 7);
                ("sourceChainId", PyInt 11155111);
                ("destinationChainId", PyInt 80001) ])
      "destinationChainId" = Returns dest /\
    py_eq dest (PyInt (chain_id (dest_chain_config processor))) = true /\
    (forall n, dest = PyInt n -> n = chain_id (dest_chain_config processor)).
Proof.
  apply (process_event_chain_ids processor
           (TokensLocked tx_hash 110 "0xA1" 80001 "0xB2" 5 7) _ (start 115)).
  vm_compute. reflexivity.
Defined.

(** ** C8 *)

(** A missing key or a value that cannot be indexed is caught: the event
    is dropped and reported. *)
Lemma process_event_drops_missing_args (self : TransactionProcessor)
    (event : pyval) (s : state) (e : exn) :
  subscript event "args" = Raises e ->
  process_event self event s =
  (Returns None,
   snd (logger ERROR "Failed to process event due to malformed data." s)).
Proof.
  intro H.
  unfold process_event, try_except, bind, lift, ret. simpl.
  rewrite H. simpl. apply subscript_raises in H. rewrite H. reflexivity.
Qed.

(** C8 (what the code does on a malformed hash): an event whose
    [transactionHash] is text, not bytes, fails at [.hex()] with
    [AttributeError], which [except (KeyError, TypeError)] lets through. *)
Theorem process_event_text_hash_raises :
  fst (process_event processor
         (TokensLocked (PyStr "0x12ab") 110 "0xA1" 80001 "0xB2" 5 7)
         (start 115))
    = Raises AttributeError.
Proof.
  vm_compute. reflexivity.
Qed.

(** ** C3 *)

(** C3: with the head at 120, depth 5 and the cursor at 100, a scan whose
    query succeeds creates its filter over [101, 115] and nothing else,
    and moves the cursor to 115; when the query yields one event of block
    110 for the configured destination with nonce 7, the processor turns
    the batch into exactly one payload, whose nonce is 7. *)
Theorem scenario_A (w : Web3) (cfg : chain_config) (p : TransactionProcessor)
    (s : state) (tx : list byte) (sender receiver : string) (amount : Z) :
  is_connected w = true ->
  block_number w (head_reads s) = Returns 120 ->
  confirmation_blocks cfg = 5 ->
  last_scanned_block s = 100 ->
  create_filter w 101 115 = Returns tt ->
  get_all_entries w 101 115 =
    Returns [TokensLocked (PyBytes tx) 110 sender
               (chain_id (dest_chain_config p)) receiver amount 7] ->
  exists s1 payload,
    scan_for_events (scanner_on w cfg) s =
      (Returns [TokensLocked (PyBytes tx) 110 sender
                  (chain_id (dest_chain_config p)) receiver amount 7], s1) /\
    filters s1 = (filters s ++ [(101, 115)])%list /\
    last_scanned_block s1 = 115 /\
    map (fun ev => fst (process_event p ev s1))
        [TokensLocked (PyBytes tx) 110 sender
           (chain_id (dest_chain_config p)) receiver amount 7]
      = [Returns (Some payload)] /\
    subscript payload "nonce" = Returns (PyInt 7).
Proof.
  intros Hc Hhead Hdepth Hcur Hfilter Hget.
  rewrite (scan_for_events_connected (scanner_on w cfg) w s eq_refl Hc).
  unfold try_except, scan_body, bind, eth_block_number,
    set_confirmation_depth, get_confirmation_depth, get_last_scanned_block,
    logger, TokensLocked_create_filter, lift, ret, set_last_scanned_block.
  simpl. rewrite Hhead. simpl. rewrite Hdepth, Hcur. simpl.
  rewrite Hfilter. simpl. rewrite Hget. simpl.
  eexists. eexists.
  split; [reflexivity |]. simpl.
  split; [reflexivity |].
  split; [reflexivity |].
  unfold process_event, try_except, bind, lift, logger, ret, py_ne. simpl.
  rewrite Z.eqb_refl. simpl.
  split; reflexivity.
Qed.

Lemma scenario_A_witness :
  exists s1 payload,
    scan_for_events
      (scanner_on
         (node 120 [TokensLocked (PyBytes [x12; xab]) 110 "0xA1"
                      (chain_id (dest_chain_config processor)) "0xB2" 5 7])
         sepolia) (start 100) =
      (Returns [TokensLocked (PyBytes [x12; xab]) 110 "0xA1"
                  (chain_id (dest_chain_config processor)) "0xB2" 5 7], s1) /\
    filters s1 = (filters (start 100) ++ [(101, 115)])%list /\
    last_scanned_block s1 = 115 /\
    map (fun ev => fst (process_event processor ev s1))
        [TokensLocked (PyBytes [x12; xab]) 110 "0xA1"
           (chain_id (dest_chain_config processor)) "0xB2" 5 7]
      = [Returns (Some payload)] /\
    subscript payload "nonce" = Returns (PyInt 7).
Proof.
  apply (scenario_A
           (node 120 [TokensLocked (PyBytes [x12; xab]) 110 "0xA1"
                        (chain_id (dest_chain_config processor)) "0xB2" 5 7])
           sepolia processor (start 100) [x12; xab] "0xA1" "0xB2" 5).
  - reflexivity.
  - reflexivity.
  - reflexivity.
  - reflexivity.
  - reflexivity.
  - reflexivity.
Defined.

(** ** The order of dictionary keys *)

Lemma leb_iff (a b : string) :
  String.leb a b = true <-> a = b \/ String_as_OT.lt a b.
Proof.
  unfold String.leb.
  destruct (String.compare a b) eqn:E.
  - apply String.compare_eq_iff in E. tauto.
  - apply String_as_OT.cmp_lt in E. tauto.
  - split; [discriminate |].
    intros [-> | Hlt].
    + assert (H : String.compare b b = Eq)
        by (apply String_as_OT.cmp_eq; reflexivity).
      congruence.
    + apply String_as_OT.cmp_lt in Hlt.
      unfold String_as_OT.cmp in Hlt. congruence.
Qed.

Lemma leb_trans (a b c : string) :
  String.leb a b = true -> String.leb b c = true -> String.leb a c = true.
Proof.
  rewrite !leb_iff.
  intros [-> | Hab] [-> | Hbc]; auto.
  right. eapply String_as_OT.lt_trans; eassumption.
Qed.

Lemma leb_false (a b : string) :
  String.leb a b = false -> String.leb b a = true.
Proof.
  intro H. destruct (String.leb_total a b) as [H' | H']; congruence.
Qed.

Section Sorting.

Context {A : Type}.
Implicit Types (x y : string * A) (l : list (string * A)).

(** Two items with different keys can be inserted in either order. *)
Lemma insert_item_comm x y l :
  fst x <> fst y ->
  insert_item x (insert_item y l) = insert_item y (insert_item x l).
Proof.
  intro Hxy.
  induction l as [| z l IH]; simpl.
  - destruct (String.leb (fst x) (fst y)) eqn:Exy;
      destruct (String.leb (fst y) (fst x)) eqn:Eyx; try reflexivity.
    + elim Hxy. apply String.leb_antisym; assumption.
    + apply leb_false in Exy. congruence.
  - destruct (String.leb (fst y) (fst z)) eqn:Eyz;
      destruct (String.leb (fst x) (fst z)) eqn:Exz; simpl;
      rewrite ?Eyz, ?Exz.
    + destruct (String.leb (fst x) (fst y)) eqn:Exy;
        destruct (String.leb (fst y) (fst x)) eqn:Eyx;
        rewrite ?Eyz, ?Exz; try reflexivity.
      * elim Hxy. apply String.leb_antisym; assumption.
      * apply leb_false in Exy. congruence.
    + destruct (String.leb (fst x) (fst y)) eqn:Exy.
      * rewrite (leb_trans _ _ _ Exy Eyz) in Exz. discriminate.
      * rewrite ?Exz. reflexivity.
    + destruct (String.leb (fst y) (fst x)) eqn:Eyx.
      * rewrite (leb_trans _ _ _ Eyx Exz) in Eyz. discriminate.
      * rewrite ?Eyz. reflexivity.
    + rewrite IH. reflexivity.
Qed.

(** The sorted items depend on the mapping only, not on the order in
    which the keys were inserted. *)
Lemma sort_items_permutation l l' :
  Permutation l l' -> NoDup (map fst l) -> sort_items l = sort_items l'.
Proof.
  induction 1 as [| x l l' Hp IH | x y l | l l' l'' Hp1 IH1 Hp2 IH2];
    intro Hnd; simpl.
  - reflexivity.
  - simpl in Hnd. apply NoDup_cons_iff in Hnd. destruct Hnd as [_ Hnd].
    rewrite (IH Hnd). reflexivity.
  - apply insert_item_comm.
    simpl in Hnd. apply NoDup_cons_iff in Hnd. destruct Hnd as [Hin _].
    intro Heq. apply Hin. left. symmetry. exact Heq.
  - rewrite (IH1 Hnd). apply IH2.
    eapply Permutation_NoDup; [| exact Hnd].
    apply Permutation_map. exact Hp1.
Qed.

Lemma insert_item_In x y l : In y (insert_item x l) -> y = x \/ In y l.
Proof.
  induction l as [| z l IH]; simpl.
  - intros [<- | []]. auto.
  - destruct (String.leb (fst x) (fst z)); simpl.
    + intros [<- | H]; auto.
    + intros [<- | H]; auto. apply IH in H. tauto.
Qed.

Lemma sort_items_In y l : In y (sort_items l) -> In y l.
Proof.
  induction l as [| x l IH]; simpl; [tauto |].
  intro H. apply insert_item_In in H. destruct H as [-> | H]; auto.
Qed.

End Sorting.

(** ** The encoder *)

(** Induction on a value with the hypothesis for every member. *)
Lemma pyval_members_ind (P : pyval -> Prop) :
  P PyNone ->
  (forall b, P (PyBool b)) ->
  (forall z, P (PyInt z)) ->
  (forall s, P (PyStr s)) ->
  (forall bs, P (PyBytes bs)) ->
  (forall l, Forall P l -> P (PyList l)) ->
  (forall d, Forall (fun kv => P (snd kv)) d -> P (PyDict d)) ->
  forall v, P v.
Proof.
  intros HNone HBool HInt HStr HBytes HList HDict.
  fix IH 1.
  intros [| b | z | s | bs | l | d].
  - exact HNone.
  - apply HBool.
  - apply HInt.
  - apply HStr.
  - apply HBytes.
  - apply HList. induction l as [| x l IHl]; constructor.
    + apply IH.
    + exact IHl.
  - apply HDict. induction d as [| [k x] d IHd]; constructor.
    + apply IH.
    + exact IHd.
Qed.

Lemma json_dumps_list (l : list pyval) :
  json_dumps (PyList l) =
  match all_returned (map json_dumps l) with
  | Returns parts => Returns ("[" ++ String.concat ", " parts ++ "]")
  | Raises e => Raises e
  end.
Proof.
  simpl.
  replace ((fix go (l0 : list pyval) : list (outcome string) :=
              match l0 with
              | [] => []
              | x :: r => json_dumps x :: go r
              end) l)
    with (map json_dumps l); [reflexivity |].
  induction l as [| x l IH]; simpl; [reflexivity |].
  rewrite IH. reflexivity.
Qed.

Lemma json_dumps_dict (d : list (string * pyval)) :
  json_dumps (PyDict d) =
  match all_returned
          (map encode_item
             (sort_items (map (fun kv => (fst kv, json_dumps (snd kv))) d)))
  with
  | Returns parts => Returns ("{" ++ String.concat ", " parts ++ "}")
  | Raises e => Raises e
  end.
Proof.
  simpl.
  replace ((fix go (d0 : list (string * pyval))
              : list (string * outcome string) :=
              match d0 with
              | [] => []
              | (k, x) :: r => (k, json_dumps x) :: go r
              end) d)
    with (map (fun kv => (fst kv, json_dumps (snd kv))) d); [reflexivity |].
  induction d as [| [k x] d IH]; simpl; [reflexivity |].
  rewrite IH. reflexivity.
Qed.

Lemma all_returned_raises (l : list (outcome string)) (e : exn) :
  all_returned l = Raises e -> In (Raises e) l.
Proof.
  induction l as [| [x | e0] l IH]; simpl.
  - discriminate.
  - destruct (all_returned l); [discriminate |].
    intro H. right. apply IH. exact H.
  - intro H. injection H as ->. left. reflexivity.
Qed.

(** The encoder fails on byte strings only, with [TypeError]. *)
Lemma json_dumps_raises (v : pyval) (e : exn) :
  json_dumps v = Raises e -> e = TypeError.
Proof.
  revert e.
  induction v as [| b | z | s | bs | l IH | d IH] using pyval_members_ind;
    intro e; try (simpl; discriminate).
  - simpl. intro H; injection H as <-; reflexivity.
  - rewrite json_dumps_list.
    destruct (all_returned (map json_dumps l)) as [parts | e0] eqn:E;
      [discriminate |].
    intro H; injection H as ->.
    apply all_returned_raises in E. apply in_map_iff in E.
    destruct E as (x & Hx & Hin).
    rewrite Forall_forall in IH. exact (IH x Hin e Hx).
  - rewrite json_dumps_dict.
    destruct (all_returned _) as [parts | e0] eqn:E; [discriminate |].
    intro H; injection H as ->.
    apply all_returned_raises in E. apply in_map_iff in E.
    destruct E as ([k o] & Hitem & Hin).
    apply sort_items_In in Hin. apply in_map_iff in Hin.
    destruct Hin as ([k' x] & Hkx & Hin). simpl in Hkx.
    injection Hkx as -> <-.
    unfold encode_item in Hitem. simpl in Hitem.
    destruct (json_dumps x) as [m | e1] eqn:Ex; [discriminate |].
    injection Hitem as ->.
    rewrite Forall_forall in IH. exact (IH (k, x) Hin e Ex).
Qed.

(** ** C7 and C9 *)

Section DispatchProperties.

Variable keccak : string -> list byte.
Variable requests_post : nat -> pyval -> outcome Z.

(** C7: the message [dispatch] signs is a function of the payload alone
    (serializing it again gives the same text), and two payloads with the
    same fields, inserted in any order, serialize to the same text and so
    have the same content hash. *)
Theorem canonical_serialization (p q : list (string * pyval)) :
  NoDup (map fst p) ->
  Permutation p q ->
  json_dumps (PyDict q) = json_dumps (PyDict p) /\
  (forall m m', json_dumps (PyDict p) = Returns m ->
                json_dumps (PyDict q) = Returns m' ->
                keccak m' = keccak m).
Proof.
  intros Hnd Hperm.
  assert (Heq : json_dumps (PyDict q) = json_dumps (PyDict p)).
  { rewrite !json_dumps_dict.
    rewrite (sort_items_permutation
               (map (fun kv => (fst kv, json_dumps (snd kv))) p)
               (map (fun kv => (fst kv, json_dumps (snd kv))) q)).
    - reflexivity.
    - apply Permutation_map. exact Hperm.
    - rewrite map_map. simpl. exact Hnd. }
  split; [exact Heq |].
  intros m m' Hm Hm'. rewrite Heq, Hm in Hm'.
  injection Hm' as <-. reflexivity.
Qed.

(** What [_simulate_api_call] can let through is not a request failure;
    it is still an [Exception] when the relayer call raises nothing
    else. *)
Lemma simulate_api_call_outcome (payload : pyval) (signature : string)
    (s : state) :
  (forall n body e, requests_post n body = Raises e ->
                    isinstance_Exception e = true) ->
  fst (_simulate_api_call requests_post payload signature s) = Returns tt \/
  exists e,
    fst (_simulate_api_call requests_post payload signature s) = Raises e /\
    isinstance_Exception e = true.
Proof.
  intro Hpost.
  unfold _simulate_api_call, try_except, bind, logger, post,
    raise_for_status, raise, lift, ret.
  simpl.
  destruct (requests_post _ _) as [status | e] eqn:E; simpl.
  - destruct ((400 <=? status) && (status <? 600))%bool; simpl.
    + left. reflexivity.
    + destruct (subscript payload "nonce") as [n | e] eqn:En; simpl.
      * left. reflexivity.
      * apply subscript_raises in En.
        destruct e; try discriminate; simpl; right; eexists; split;
          reflexivity.
  - apply Hpost in E.
    destruct (isinstance_RequestException e); simpl.
    + left. reflexivity.
    + right. exists e. auto.
Qed.

(** [dispatch] on a dictionary returns, whatever fails inside. *)
Lemma dispatch_returns (self : CrossChainDispatcher)
    (d : list (string * pyval)) (s : state) :
  (forall h e, signHash self h = Raises e ->
               isinstance_Exception e = true) ->
  (forall n body e, requests_post n body = Raises e ->
                    isinstance_Exception e = true) ->
  fst (dispatch keccak requests_post self (PyDict d) s) = Returns tt.
Proof.
  intros Hsign Hpost.
  unfold dispatch, try_except, bind at 1, lift at 1.
  destruct (json_dumps (PyDict d)) as [message | e] eqn:Ejson.
  2: { apply json_dumps_raises in Ejson. subst e. simpl.
       unfold bind, lift, logger. simpl.
       destruct (dict_get "nonce" d); reflexivity. }
  unfold bind at 1, lift at 1.
  destruct (signHash self (keccak message)) as [signature | e] eqn:Esign.
  2: { apply Hsign in Esign. rewrite Esign.
       unfold bind, lift, logger. simpl.
       destruct (dict_get "nonce" d); reflexivity. }
  unfold bind at 1, lift at 1.
  destruct (subscript (PyDict d) "nonce") as [nonce | e] eqn:Enonce.
  2: { apply subscript_raises in Enonce.
       destruct e; try discriminate; simpl;
         unfold bind, lift, logger; simpl;
         destruct (dict_get "nonce" d); reflexivity. }
  unfold bind at 1, logger at 1. unfold bind at 1, logger at 1.
  match goal with
  | |- context [_simulate_api_call requests_post ?p ?sg ?st] =>
      destruct (simulate_api_call_outcome p sg st Hpost) as [Hok | (e & He & Hcls)];
      destruct (_simulate_api_call requests_post p sg st) as [[[] | e'] s2]
  end; simpl in *; try discriminate.
  - reflexivity.
  - injection He as ->. rewrite Hcls.
    unfold bind, lift, logger. simpl.
    destruct (dict_get "nonce" d); reflexivity.
Qed.

(** C9: [dispatch] returns to its caller without raising when signing or
    delivery fails, so the loop over a batch goes on to the payloads
    that follow a failed one and ends normally. *)
Theorem dispatch_never_raises (self : CrossChainDispatcher) :
  (forall h e, signHash self h = Raises e ->
               isinstance_Exception e = true) ->
  (forall n body e, requests_post n body = Raises e ->
                    isinstance_Exception e = true) ->
  (forall d s,
     fst (dispatch keccak requests_post self (PyDict d) s) = Returns tt) /\
  (forall d batch s,
     for_each (map PyDict (d :: batch))
              (dispatch keccak requests_post self) s =
     for_each (map PyDict batch) (dispatch keccak requests_post self)
              (snd (dispatch keccak requests_post self (PyDict d) s))) /\
  (forall batch s,
     fst (for_each (map PyDict batch)
                   (dispatch keccak requests_post self) s) = Returns tt).
Proof.
  intros Hsign Hpost.
  assert (Hone : forall d s,
             fst (dispatch keccak requests_post self (PyDict d) s)
               = Returns tt)
    by (intros d s; apply dispatch_returns; assumption).
  assert (Hstep : forall d batch s,
             for_each (map PyDict (d :: batch))
                      (dispatch keccak requests_post self) s =
             for_each (map PyDict batch)
                      (dispatch keccak requests_post self)
                      (snd (dispatch keccak requests_post self
                              (PyDict d) s))).
  { intros d batch s. simpl. unfold bind at 1.
    specialize (Hone d s).
    destruct (dispatch keccak requests_post self (PyDict d) s)
      as [[[] | e] s1]; simpl in *; [reflexivity | discriminate]. }
  split; [exact Hone |]. split; [exact Hstep |].
  induction batch as [| d batch IH]; intro s.
  - reflexivity.
  - rewrite Hstep. apply IH.
Qed.

End DispatchProperties.

Lemma payload_7_keys : NoDup (map fst payload_7).
Proof.
  unfold payload_7. simpl.
  repeat (constructor; [simpl; intuition discriminate |]).
  constructor.
Qed.

Lemma canonical_serialization_witness :
  json_dumps (PyDict payload_7_reordered) = json_dumps (PyDict payload_7) /\
  (forall m m', json_dumps (PyDict payload_7) = Returns m ->
                json_dumps (PyDict payload_7_reordered) = Returns m' ->
                sample_hash m' = sample_hash m).
Proof.
  apply (canonical_serialization sample_hash payload_7 payload_7_reordered).
  - exact payload_7_keys.
  - apply perm_swap.
Defined.

Lemma dispatch_never_raises_witness :
  (forall d s,
     fst (dispatch sample_hash unreachable_relayer broken_signer (PyDict d) s)
       = Returns tt) /\
  (forall d batch s,
     for_each (map PyDict (d :: batch))
              (dispatch sample_hash unreachable_relayer broken_signer) s =
     for_each (map PyDict batch)
              (dispatch sample_hash unreachable_relayer broken_signer)
              (snd (dispatch sample_hash unreachable_relayer broken_signer
                      (PyDict d) s))) /\
  (forall batch s,
     fst (for_each (map PyDict batch)
                   (dispatch sample_hash unreachable_relayer broken_signer) s)
       = Returns tt).
Proof.
  apply (dispatch_never_raises sample_hash unreachable_relayer broken_signer).
  - intros h e H. injection H as <-. reflexivity.
  - intros n body e H. injection H as <-. reflexivity.
Defined.

(** ** Sample runs of the dispatcher *)

(** The canonical text of the sample payload: keys in order. *)
Example payload_7_message :
  json_dumps (PyDict payload_7) =
  Returns
    (String.concat quote
       [ "{"; "amount"; ": 5, "; "destinationChainId"; ": 80001, ";
         "nonce"; ": 7, "; "receiver"; ": "; "0xB2"; ", "; "sender"; ": ";
         "0xA1"; ", "; "sourceBlockNumber"; ": 110, "; "sourceChainId";
         ": 11155111, "; "sourceTransactionHash"; ": "; "12ab"; "}" ]).
Proof. vm_compute. reflexivity. Qed.

(** A 503 from the relayer is logged; the next payload is still posted. *)
Example batch_after_failed_delivery :
  let run := for_each [PyDict payload_7; PyDict payload_7_reordered]
               (dispatch sample_hash recovering_relayer signer) (start 115) in
  fst run = Returns tt /\
  List.length (posts (snd run)) = 2%nat /\
  map fst (logged (snd run)) =
    [INFO; INFO; INFO; ERROR; INFO; INFO; INFO; INFO].
Proof. vm_compute. repeat split. Qed.

(** A failed signature is logged and nothing is posted. *)
Example dispatch_with_broken_signer :
  dispatch sample_hash recovering_relayer broken_signer (PyDict payload_7)
    (start 115) =
  (Returns tt,
   mkState 115 None 0 [] [] [(ERROR, "Failed to dispatch payload")]).
Proof. vm_compute. reflexivity. Qed.

(** * Further properties of the scanner *)

Lemma log_event_details_posts (events : list pyval) (s : state) :
  posts (snd (for_each events log_event_details s)) = posts s.
Proof.
  revert s.
  induction events as [| ev events IH]; intro s; simpl; [reflexivity |].
  unfold bind, log_event_details, lift, logger.
  destruct (subscript ev "args") as [args | e]; simpl; [| reflexivity].
  rewrite IH. reflexivity.
Qed.

Lemma log_new_events_posts (events : list pyval) (s : state) :
  posts (snd (log_new_events events s)) = posts s.
Proof.
  unfold log_new_events.
  destruct events as [| ev events]; [reflexivity |].
  unfold bind at 1, logger at 1.
  rewrite log_event_details_posts. reflexivity.
Qed.

Lemma log_event_details_loggable (events : list pyval) (s : state) :
  forallb has_args events = true ->
  fst (for_each events log_event_details s) = Returns tt.
Proof.
  revert s.
  induction events as [| ev events IH]; intros s H; simpl; [reflexivity |].
  simpl in H. apply andb_prop in H. destruct H as [Hev Hrest].
  unfold bind, log_event_details, lift, logger.
  unfold has_args in Hev.
  destruct (subscript ev "args") as [args | e]; [| discriminate].
  simpl. apply IH. exact Hrest.
Qed.

Lemma log_new_events_loggable (events : list pyval) (s : state) :
  forallb has_args events = true ->
  fst (log_new_events events s) = Returns tt.
Proof.
  intro H. unfold log_new_events.
  destruct events as [| ev events]; [reflexivity |].
  unfold bind at 1, logger at 1.
  apply log_event_details_loggable. exact H.
Qed.

Lemma log_event_details_malformed (events : list pyval) (s : state) :
  forallb has_args events = false ->
  exists e, fst (for_each events log_event_details s) = Raises e.
Proof.
  revert s.
  induction events as [| ev events IH]; intros s H; simpl in *.
  - discriminate.
  - unfold bind, log_event_details, lift, logger.
    unfold has_args in H.
    destruct (subscript ev "args") as [args | e]; simpl in *.
    + apply IH. exact H.
    + exists e. reflexivity.
Qed.

Lemma log_new_events_malformed (events : list pyval) (s : state) :
  forallb has_args events = false ->
  exists e, fst (log_new_events events s) = Raises e /\
            isinstance_KeyError_or_TypeError e = true.
Proof.
  intro H. unfold log_new_events.
  destruct events as [| ev events]; [discriminate |].
  unfold bind at 1, logger at 1.
  match goal with
  | |- context [for_each ?l log_event_details ?st] =>
      destruct (log_event_details_malformed l st H) as (e & He);
      exists e; split; [exact He |];
      exact (log_event_details_raises l st e He)
  end.
Qed.

(** The [try] body on a range that is new and served. *)
Lemma scan_body_advances (self : EventScanner) (w : Web3) (s : state)
    (head : Z) (events : list pyval) :
  block_number w (head_reads s) = Returns head ->
  last_scanned_block s < head - confirmation_blocks (config self) ->
  create_filter w (last_scanned_block s + 1)
    (head - confirmation_blocks (config self)) = Returns tt ->
  get_all_entries w (last_scanned_block s + 1)
    (head - confirmation_blocks (config self)) = Returns events ->
  forallb has_args events = true ->
  fst (scan_body self w s) = Returns events /\
  last_scanned_block (snd (scan_body self w s))
    = head - confirmation_blocks (config self) /\
  filters (snd (scan_body self w s))
    = (filters s ++ [(last_scanned_block s + 1,
                      head - confirmation_blocks (config self))])%list /\
  head_reads (snd (scan_body self w s)) = S (head_reads s) /\
  posts (snd (scan_body self w s)) = posts s.
Proof.
  intros Hhead Hlt Hfilter Hget Hargs.
  unfold scan_body, bind, eth_block_number, set_confirmation_depth,
    get_confirmation_depth, get_last_scanned_block, logger,
    TokensLocked_create_filter, lift, ret, set_last_scanned_block.
  cbn -[Z.sub Z.add log_new_events]. rewrite Hhead.
  cbn -[Z.sub Z.add log_new_events].
  destruct (Z.geb_spec (last_scanned_block s)
              (head - confirmation_blocks (config self))) as [Hge | _];
    [lia |].
  cbn -[Z.sub Z.add log_new_events]. rewrite Hfilter.
  cbn -[Z.sub Z.add log_new_events]. rewrite Hget.
  cbn -[Z.sub Z.add log_new_events].
  match goal with
  | |- context [log_new_events ?l ?st] =>
      pose proof (log_new_events_loggable l st Hargs) as Hok;
      pose proof (log_new_events_frame l st) as (_ & _ & Hr & Hf);
      pose proof (log_new_events_posts l st) as Hp;
      destruct (log_new_events l st) as [[[] | e] s2]
  end; simpl in *; [| discriminate].
  repeat split; assumption.
Qed.

Lemma KeyError_or_TypeError_is_Exception (e : exn) :
  isinstance_KeyError_or_TypeError e = true ->
  isinstance_Exception e = true /\ isinstance_BlockNotFound e = false.
Proof.
  destruct e; simpl; intro H; try discriminate; split; reflexivity.
Qed.

Lemma isinstance_BlockNotFound_eq (e : exn) :
  isinstance_BlockNotFound e = true -> e = BlockNotFound.
Proof.
  destruct e; simpl; intro H; try discriminate; reflexivity.
Qed.

(** A scan over a new, served range, seen from the caller. *)
Lemma scan_for_events_new_range (self : EventScanner) (w : Web3) (s : state)
    (head : Z) (events : list pyval) :
  web3 (connector self) = Some w ->
  is_connected w = true ->
  block_number w (head_reads s) = Returns head ->
  last_scanned_block s < head - confirmation_blocks (config self) ->
  create_filter w (last_scanned_block s + 1)
    (head - confirmation_blocks (config self)) = Returns tt ->
  get_all_entries w (last_scanned_block s + 1)
    (head - confirmation_blocks (config self)) = Returns events ->
  forallb has_args events = true ->
  fst (scan_for_events self s) = Returns events /\
  last_scanned_block (snd (scan_for_events self s))
    = head - confirmation_blocks (config self) /\
  filters (snd (scan_for_events self s))
    = (filters s ++ [(last_scanned_block s + 1,
                      head - confirmation_blocks (config self))])%list /\
  head_reads (snd (scan_for_events self s)) = S (head_reads s) /\
  posts (snd (scan_for_events self s)) = posts s.
Proof.
  intros Hw Hc Hhead Hlt Hfilter Hget Hargs.
  rewrite (scan_for_events_connected self w s Hw Hc).
  unfold try_except.
  pose proof (scan_body_advances self w (snd (set_confirmation_depth None s))
                head events Hhead Hlt Hfilter Hget Hargs) as H.
  destruct (scan_body self w (snd (set_confirmation_depth None s)))
    as [[r | e] s1]; simpl in *.
  - exact H.
  - destruct H as [H _]. discriminate.
Qed.

(** X1: when the head has moved past [cursor + depth] and the node serves
    the query, the scan asks for exactly [cursor + 1, head - depth],
    returns what the node gave for it, and moves the cursor to
    [head - depth]. *)
Theorem scan_advances_cursor (self : EventScanner) (w : Web3) (s : state)
    (head : Z) (events : list pyval) :
  web3 (connector self) = Some w ->
  is_connected w = true ->
  block_number w (head_reads s) = Returns head ->
  last_scanned_block s < head - confirmation_blocks (config self) ->
  create_filter w (last_scanned_block s + 1)
    (head - confirmation_blocks (config self)) = Returns tt ->
  get_all_entries w (last_scanned_block s + 1)
    (head - confirmation_blocks (config self)) = Returns events ->
  forallb has_args events = true ->
  fst (scan_for_events self s) = Returns events /\
  last_scanned_block (snd (scan_for_events self s))
    = head - confirmation_blocks (config self) /\
  filters (snd (scan_for_events self s))
    = (filters s ++ [(last_scanned_block s + 1,
                      head - confirmation_blocks (config self))])%list.
Proof.
  intros Hw Hc Hhead Hlt Hfilter Hget Hargs.
  destruct (scan_for_events_new_range self w s head events
              Hw Hc Hhead Hlt Hfilter Hget Hargs) as (H1 & H2 & H3 & _).
  auto.
Qed.

Lemma scan_advances_cursor_witness :
  fst (scan_for_events
         (scanner_on
            (node 300 [TokensLocked tx_hash 250 "0xA1" 80001 "0xB2" 5 7;
                       TokensLocked tx_hash 299 "0xA1" 80001 "0xB2" 1 8])
            sepolia) (start 200))
    = Returns [TokensLocked tx_hash 250 "0xA1" 80001 "0xB2" 5 7] /\
  last_scanned_block
    (snd (scan_for_events
            (scanner_on
               (node 300 [TokensLocked tx_hash 250 "0xA1" 80001 "0xB2" 5 7;
                          TokensLocked tx_hash 299 "0xA1" 80001 "0xB2" 1 8])
               sepolia) (start 200)))
    = 300 - confirmation_blocks sepolia /\
  filters
    (snd (scan_for_events
            (scanner_on
               (node 300 [TokensLocked tx_hash 250 "0xA1" 80001 "0xB2" 5 7;
                          TokensLocked tx_hash 299 "0xA1" 80001 "0xB2" 1 8])
               sepolia) (start 200)))
    = (filters (start 200)
         ++ [(last_scanned_block (start 200) + 1,
              300 - confirmation_blocks sepolia)])%list.
Proof.
  apply (scan_advances_cursor
           (scanner_on
              (node 300 [TokensLocked tx_hash 250 "0xA1" 80001 "0xB2" 5 7;
                         TokensLocked tx_hash 299 "0xA1" 80001 "0xB2" 1 8])
              sepolia)
           (node 300 [TokensLocked tx_hash 250 "0xA1" 80001 "0xB2" 5 7;
                      TokensLocked tx_hash 299 "0xA1" 80001 "0xB2" 1 8])
           (start 200) 300
           [TokensLocked tx_hash 250 "0xA1" 80001 "0xB2" 5 7]).
  - reflexivity.
  - reflexivity.
  - reflexivity.
  - simpl. lia.
  - reflexivity.
  - reflexivity.
  - reflexivity.
Defined.

(** X2: one fetched event without ['args'] makes the logging loop fail
    inside the [try] statement: the scan returns the empty list, the
    whole batch is withheld, and the cursor stays, so the same range is
    asked for again on the next poll. *)
Theorem scan_withholds_batch_on_malformed_event (self : EventScanner)
    (w : Web3) (s : state) (head : Z) (events : list pyval) :
  web3 (connector self) = Some w ->
  is_connected w = true ->
  block_number w (head_reads s) = Returns head ->
  last_scanned_block s < head - confirmation_blocks (config self) ->
  create_filter w (last_scanned_block s + 1)
    (head - confirmation_blocks (config self)) = Returns tt ->
  get_all_entries w (last_scanned_block s + 1)
    (head - confirmation_blocks (config self)) = Returns events ->
  forallb has_args events = false ->
  fst (scan_for_events self s) = Returns [] /\
  last_scanned_block (snd (scan_for_events self s)) = last_scanned_block s.
Proof.
  intros Hw Hc Hhead Hlt Hfilter Hget Hargs.
  rewrite (scan_for_events_connected self w s Hw Hc).
  unfold try_except.
  destruct (scan_body self w (snd (set_confirmation_depth None s)))
    as [[r | e] s1] eqn:Hbody.
  - exfalso. revert Hbody.
    unfold scan_body, bind, eth_block_number, set_confirmation_depth,
      get_confirmation_depth, get_last_scanned_block, logger,
      TokensLocked_create_filter, lift, ret, set_last_scanned_block.
    cbn -[Z.sub Z.add log_new_events]. rewrite Hhead.
    cbn -[Z.sub Z.add log_new_events].
    destruct (Z.geb_spec (last_scanned_block s)
                (head - confirmation_blocks (config self))) as [Hge | _];
      [lia |].
    cbn -[Z.sub Z.add log_new_events]. rewrite Hfilter.
    cbn -[Z.sub Z.add log_new_events]. rewrite Hget.
    cbn -[Z.sub Z.add log_new_events].
    match goal with
    | |- context [log_new_events ?l ?st] =>
        destruct (log_new_events_malformed l st Hargs) as (e & He & _);
        destruct (log_new_events l st) as [[[] | e'] s2]
    end; simpl in *; discriminate.
  - assert (Hcls : isinstance_KeyError_or_TypeError e = true).
    { revert Hbody.
      unfold scan_body, bind, eth_block_number, set_confirmation_depth,
        get_confirmation_depth, get_last_scanned_block, logger,
        TokensLocked_create_filter, lift, ret, set_last_scanned_block.
      cbn -[Z.sub Z.add log_new_events]. rewrite Hhead.
      cbn -[Z.sub Z.add log_new_events].
      destruct (Z.geb_spec (last_scanned_block s)
                  (head - confirmation_blocks (config self))) as [Hge | _];
        [lia |].
      cbn -[Z.sub Z.add log_new_events]. rewrite Hfilter.
      cbn -[Z.sub Z.add log_new_events]. rewrite Hget.
      cbn -[Z.sub Z.add log_new_events].
      match goal with
      | |- context [log_new_events ?l ?st] =>
          pose proof (log_new_events_raises l st) as Hr;
          destruct (log_new_events l st) as [[[] | e'] s2]
      end; simpl in *; [discriminate |].
      intro H. injection H as <- _. apply Hr. reflexivity. }
    apply KeyError_or_TypeError_is_Exception in Hcls.
    destruct Hcls as [Hexc Hbnf]. rewrite Hexc.
    apply scan_body_raises in Hbody. destruct Hbody as (Hcur & _).
    unfold scan_handler. rewrite Hbnf.
    unfold bind, logger, ret. simpl in *. auto.
Qed.

Lemma scan_withholds_batch_on_malformed_event_witness :
  fst (scan_for_events
         (scanner_on
            (node 300 [TokensLocked tx_hash 250 "0xA1" 80001 "0xB2" 5 7;
                       PyDict [("blockNumber", PyInt 260)]])
            sepolia) (start 200))
    = Returns [] /\
  last_scanned_block
    (snd (scan_for_events
            (scanner_on
               (node 300 [TokensLocked tx_hash 250 "0xA1" 80001 "0xB2" 5 7;
                          PyDict [("blockNumber", PyInt 260)]])
               sepolia) (start 200)))
    = last_scanned_block (start 200).
Proof.
  apply (scan_withholds_batch_on_malformed_event
           (scanner_on
              (node 300 [TokensLocked tx_hash 250 "0xA1" 80001 "0xB2" 5 7;
                         PyDict [("blockNumber", PyInt 260)]])
              sepolia)
           (node 300 [TokensLocked tx_hash 250 "0xA1" 80001 "0xB2" 5 7;
                      PyDict [("blockNumber", PyInt 260)]])
           (start 200) 300
           [TokensLocked tx_hash 250 "0xA1" 80001 "0xB2" 5 7;
            PyDict [("blockNumber", PyInt 260)]]).
  - reflexivity.
  - reflexivity.
  - reflexivity.
  - simpl. lia.
  - reflexivity.
  - reflexivity.
  - reflexivity.
Defined.

(** X3: apart from the rewind on [BlockNotFound], a scan never moves the
    cursor back, whatever the node answers and however the scan ends. *)
Theorem scan_cursor_monotone (self : EventScanner) (s : state) :
  (forall w, web3 (connector self) = Some w ->
             ~ scan_fails self w s BlockNotFound) ->
  last_scanned_block s <= last_scanned_block (snd (scan_for_events self s)).
Proof.
  intro Hno.
  destruct (web3 (connector self)) as [w |] eqn:Hw.
  2: { destruct (scan_for_events_unavailable self s) as (_ & H & _);
         [left; exact Hw | lia]. }
  destruct (is_connected w) eqn:Hc.
  2: { destruct (scan_for_events_unavailable self s) as (_ & H & _);
         [right; exists w; auto | lia]. }
  rewrite (scan_for_events_connected self w s Hw Hc).
  unfold try_except.
  destruct (scan_body self w (snd (set_confirmation_depth None s)))
    as [[r | e] s1] eqn:Hbody.
  - apply scan_body_returns in Hbody.
    destruct Hbody as (head & _ & [(_ & _ & Hcur & _) | (Hlt & _ & _ & Hcur & _)]);
      simpl in *; lia.
  - pose proof (scan_body_raises self w _ s1 e Hbody) as (Hcur & _).
    simpl in Hcur.
    destruct (isinstance_Exception e); simpl; [| lia].
    unfold scan_handler.
    destruct (isinstance_BlockNotFound e) eqn:Hb.
    + exfalso. apply isinstance_BlockNotFound_eq in Hb. subst e.
      apply (Hno w eq_refl). exists s1. exact Hbody.
    + unfold bind, logger, ret. simpl. lia.
Qed.

Lemma scan_cursor_monotone_witness :
  last_scanned_block (start 100) <=
  last_scanned_block
    (snd (scan_for_events (scanner_on (slow_node 120) sepolia) (start 100))).
Proof.
  apply (scan_cursor_monotone (scanner_on (slow_node 120) sepolia)
           (start 100)).
  intros w Hw (s1 & Hbody).
  injection Hw as <-.
  vm_compute in Hbody. discriminate.
Defined.

(** X4: two scans that succeed one after the other ask for adjoining
    ranges: the second starts at the block after the last one of the
    first, so no block is skipped and none is asked for twice. *)
Theorem consecutive_scans_contiguous (self : EventScanner) (w : Web3)
    (s : state) (head head' : Z) (events events' : list pyval) :
  web3 (connector self) = Some w ->
  is_connected w = true ->
  block_number w (head_reads s) = Returns head ->
  last_scanned_block s < head - confirmation_blocks (config self) ->
  create_filter w (last_scanned_block s + 1)
    (head - confirmation_blocks (config self)) = Returns tt ->
  get_all_entries w (last_scanned_block s + 1)
    (head - confirmation_blocks (config self)) = Returns events ->
  forallb has_args events = true ->
  block_number w (S (head_reads s)) = Returns head' ->
  head < head' ->
  create_filter w (head - confirmation_blocks (config self) + 1)
    (head' - confirmation_blocks (config self)) = Returns tt ->
  get_all_entries w (head - confirmation_blocks (config self) + 1)
    (head' - confirmation_blocks (config self)) = Returns events' ->
  forallb has_args events' = true ->
  fst (scan_for_events self (snd (scan_for_events self s)))
    = Returns events' /\
  last_scanned_block
    (snd (scan_for_events self (snd (scan_for_events self s))))
    = head' - confirmation_blocks (config self) /\
  filters (snd (scan_for_events self (snd (scan_for_events self s))))
    = (filters s
         ++ [(last_scanned_block s + 1,
              head - confirmation_blocks (config self));
             (head - confirmation_blocks (config self) + 1,
              head' - confirmation_blocks (config self))])%list.
Proof.
  intros Hw Hc Hhead Hlt Hfilter Hget Hargs Hhead' Hlt' Hfilter' Hget' Hargs'.
  destruct (scan_for_events_new_range self w s head events
              Hw Hc Hhead Hlt Hfilter Hget Hargs)
    as (_ & Hcur & Hfil & Hreads & _).
  destruct (scan_for_events_new_range self w (snd (scan_for_events self s))
              head' events' Hw Hc) as (H1 & H2 & H3 & _).
  - rewrite Hreads. exact Hhead'.
  - rewrite Hcur. lia.
  - rewrite Hcur. exact Hfilter'.
  - rewrite Hcur. exact Hget'.
  - exact Hargs'.
  - split; [exact H1 |]. split; [exact H2 |].
    rewrite H3, Hfil, Hcur. rewrite <- app_assoc. reflexivity.
Qed.

Lemma consecutive_scans_contiguous_witness :
  fst (scan_for_events (scanner_on (rising_node 300 two_locks) sepolia)
         (snd (scan_for_events (scanner_on (rising_node 300 two_locks) sepolia)
                 (start 200))))
    = Returns [TokensLocked tx_hash 296 "0xA1" 80001 "0xB2" 1 8] /\
  last_scanned_block
    (snd (scan_for_events (scanner_on (rising_node 300 two_locks) sepolia)
            (snd (scan_for_events
                    (scanner_on (rising_node 300 two_locks) sepolia)
                    (start 200)))))
    = 301 - confirmation_blocks sepolia /\
  filters
    (snd (scan_for_events (scanner_on (rising_node 300 two_locks) sepolia)
            (snd (scan_for_events
                    (scanner_on (rising_node 300 two_locks) sepolia)
                    (start 200)))))
    = (filters (start 200)
         ++ [(last_scanned_block (start 200) + 1,
              300 - confirmation_blocks sepolia);
             (300 - confirmation_blocks sepolia + 1,
              301 - confirmation_blocks sepolia)])%list.
Proof.
  apply (consecutive_scans_contiguous
           (scanner_on (rising_node 300 two_locks) sepolia)
           (rising_node 300 two_locks) (start 200) 300 301
           [TokensLocked tx_hash 250 "0xA1" 80001 "0xB2" 5 7]
           [TokensLocked tx_hash 296 "0xA1" 80001 "0xB2" 1 8]).
  - reflexivity.
  - reflexivity.
  - reflexivity.
  - simpl. lia.
  - reflexivity.
  - reflexivity.
  - reflexivity.
  - reflexivity.
  - lia.
  - reflexivity.
  - reflexivity.
  - reflexivity.
Defined.

(** X5: the [BlockNotFound] handler uses [confirmation_depth], which the
    body binds after its first read of the head: when that read is what
    raises [BlockNotFound], the scan ends with [UnboundLocalError] instead
    of returning, and the cursor is not rewound. *)
Theorem scan_unbound_depth_escapes (self : EventScanner) (w : Web3)
    (s : state) (h : Z) :
  web3 (connector self) = Some w ->
  is_connected w = true ->
  block_number w (head_reads s) = Raises BlockNotFound ->
  block_number w (S (head_reads s)) = Returns h ->
  fst (scan_for_events self s)
    = Raises (UnboundLocalError "confirmation_depth") /\
  last_scanned_block (snd (scan_for_events self s)) = last_scanned_block s.
Proof.
  intros Hw Hc H1 H2.
  rewrite (scan_for_events_connected self w s Hw Hc).
  unfold try_except, scan_body, scan_handler, bind, eth_block_number,
    get_confirmation_depth, set_last_scanned_block, logger, ret.
  simpl. rewrite H1. simpl. rewrite H2. simpl.
  split; reflexivity.
Qed.

Lemma scan_unbound_depth_escapes_witness :
  fst (scan_for_events (scanner_on (headless_node 200) sepolia) (start 100))
    = Raises (UnboundLocalError "confirmation_depth") /\
  last_scanned_block
    (snd (scan_for_events (scanner_on (headless_node 200) sepolia)
            (start 100)))
    = last_scanned_block (start 100).
Proof.
  apply (scan_unbound_depth_escapes (scanner_on (headless_node 200) sepolia)
           (headless_node 200) (start 100) 200).
  - reflexivity.
  - reflexivity.
  - reflexivity.
  - reflexivity.
Defined.

(** The state a rewind leaves: the head was read twice. *)
Lemma scan_for_events_rewind (self : EventScanner) (w : Web3) (s : state)
    (head h : Z) :
  web3 (connector self) = Some w ->
  is_connected w = true ->
  block_number w (head_reads s) = Returns head ->
  scan_fails self w s BlockNotFound ->
  block_number w (S (head_reads s)) = Returns h ->
  last_scanned_block (snd (scan_for_events self s))
    = h - 2 * confirmation_blocks (config self) /\
  head_reads (snd (scan_for_events self s)) = S (S (head_reads s)).
Proof.
  intros Hw Hc Hhead (s1 & Hbody) Hh.
  rewrite (scan_for_events_connected self w s Hw Hc).
  unfold try_except. rewrite Hbody. cbn -[Z.mul Z.sub].
  apply scan_body_raises in Hbody.
  destruct Hbody as (_ & Hreads & Hdepth & _).
  simpl in Hreads, Hdepth. specialize (Hdepth head Hhead).
  unfold scan_handler, bind, logger, eth_block_number,
    get_confirmation_depth, set_last_scanned_block, ret.
  cbn -[Z.mul Z.sub]. rewrite Hreads, Hh.
  cbn -[Z.mul Z.sub]. rewrite Hdepth.
  cbn -[Z.mul Z.sub].
  split; [lia | reflexivity].
Qed.

(** X6: the poll after a rewind asks again for everything above
    [h - 2 * depth], [h] being the head the handler read: with a positive
    depth and a cursor that was at [h - 2 * depth + 1] or above, blocks
    already delivered are fetched a second time. *)
Theorem scan_after_rewind_fetches_again (self : EventScanner) (w : Web3)
    (s : state) (head h h' : Z) (events : list pyval) :
  web3 (connector self) = Some w ->
  is_connected w = true ->
  block_number w (head_reads s) = Returns head ->
  scan_fails self w s BlockNotFound ->
  block_number w (S (head_reads s)) = Returns h ->
  block_number w (S (S (head_reads s))) = Returns h' ->
  h - 2 * confirmation_blocks (config self)
    < h' - confirmation_blocks (config self) ->
  create_filter w (h - 2 * confirmation_blocks (config self) + 1)
    (h' - confirmation_blocks (config self)) = Returns tt ->
  get_all_entries w (h - 2 * confirmation_blocks (config self) + 1)
    (h' - confirmation_blocks (config self)) = Returns events ->
  forallb has_args events = true ->
  fst (scan_for_events self (snd (scan_for_events self s))) = Returns events /\
  filters (snd (scan_for_events self (snd (scan_for_events self s))))
    = (filters (snd (scan_for_events self s))
         ++ [(h - 2 * confirmation_blocks (config self) + 1,
              h' - confirmation_blocks (config self))])%list /\
  last_scanned_block
    (snd (scan_for_events self (snd (scan_for_events self s))))
    = h' - confirmation_blocks (config self).
Proof.
  intros Hw Hc Hhead Hfail Hh Hh' Hlt Hfilter Hget Hargs.
  destruct (scan_for_events_rewind self w s head h Hw Hc Hhead Hfail Hh)
    as (Hcur & Hreads).
  destruct (scan_for_events_new_range self w (snd (scan_for_events self s))
              h' events Hw Hc) as (H1 & H2 & H3 & _).
  - rewrite Hreads. exact Hh'.
  - rewrite Hcur. exact Hlt.
  - rewrite Hcur. exact Hfilter.
  - rewrite Hcur. exact Hget.
  - exact Hargs.
  - rewrite Hcur in H3. auto.
Qed.

Lemma scan_after_rewind_fetches_again_witness :
  fst (scan_for_events (scanner_on (forgetful_node 200 101 two_locks) sepolia)
         (snd (scan_for_events
                 (scanner_on (forgetful_node 200 101 two_locks) sepolia)
                 (start 100))))
    = Returns [] /\
  filters
    (snd (scan_for_events
            (scanner_on (forgetful_node 200 101 two_locks) sepolia)
            (snd (scan_for_events
                    (scanner_on (forgetful_node 200 101 two_locks) sepolia)
                    (start 100)))))
    = (filters
         (snd (scan_for_events
                 (scanner_on (forgetful_node 200 101 two_locks) sepolia)
                 (start 100)))
         ++ [(201 - 2 * confirmation_blocks sepolia + 1,
              202 - confirmation_blocks sepolia)])%list /\
  last_scanned_block
    (snd (scan_for_events
            (scanner_on (forgetful_node 200 101 two_locks) sepolia)
            (snd (scan_for_events
                    (scanner_on (forgetful_node 200 101 two_locks) sepolia)
                    (start 100)))))
    = 202 - confirmation_blocks sepolia.
Proof.
  apply (scan_after_rewind_fetches_again
           (scanner_on (forgetful_node 200 101 two_locks) sepolia)
           (forgetful_node 200 101 two_locks) (start 100) 200 201 202 []).
  - reflexivity.
  - reflexivity.
  - reflexivity.
  - eexists. vm_compute. reflexivity.
  - reflexivity.
  - reflexivity.
  - simpl. lia.
  - reflexivity.
  - reflexivity.
  - reflexivity.
Defined.

(** * Further properties of the processor *)

(** A step that keeps the equation of the field it reads. *)
Ltac read_field :=
  match goal with
  | |- context [subscript ?v ?k] =>
      let x := fresh "x" in
      let e := fresh "e" in
      let E := fresh "E" in
      destruct (subscript v k) as [x | e] eqn:E; simpl;
      [| try (pose proof (subscript_raises _ _ _ E) as ->; simpl)]
  end.

(** X7: a payload repeats the fields of its event: the four arguments and
    the destination as they are, the block number as it is, and the
    transaction hash, which is a byte string, in hexadecimal. *)
Theorem process_event_copies_fields (self : TransactionProcessor)
    (event payload : pyval) (s : state) :
  fst (process_event self event s) = Returns (Some payload) ->
  exists args tx,
    subscript event "args" = Returns args /\
    subscript event "transactionHash" = Returns (PyBytes tx) /\
    subscript payload "sourceTransactionHash"
      = Returns (PyStr (hex_of_bytes tx)) /\
    subscript payload "sourceBlockNumber" = subscript event "blockNumber" /\
    subscript payload "sender" = subscript args "sender" /\
    subscript payload "receiver" = subscript args "receiver" /\
    subscript payload "amount" = subscript args "amount" /\
    subscript payload "nonce" = subscript args "nonce" /\
    subscript payload "destinationChainId"
      = subscript args "destinationChainId".
Proof.
  unfold process_event, try_except, bind, lift, logger, ret. simpl.
  read_field; [| discriminate].
  read_field; [| discriminate].
  destruct (py_ne x0 (PyInt (chain_id (dest_chain_config self)))) eqn:Hne;
    simpl.
  - read_field; discriminate.
  - read_field; [| discriminate].
    destruct x1 as [| | | | tx | |]; simpl; try discriminate.
    read_field; [| discriminate].
    read_field; [| discriminate].
    read_field; [| discriminate].
    read_field; [| discriminate].
    read_field; [| discriminate].
    intro H. injection H as <-.
    exists x, tx. simpl.
    repeat split; try reflexivity; try assumption; symmetry; assumption.
Qed.

Lemma process_event_copies_fields_witness :
  exists args tx,
    subscript (TokensLocked tx_hash 110 "0xA1" 80001 "0xB2" 5 7) "args"
      = Returns args /\
    subscript (TokensLocked tx_hash 110 "0xA1" 80001 "0xB2" 5 7)
      "transactionHash" = Returns (PyBytes tx) /\
    subscript (PyDict payload_7) "sourceTransactionHash"
      = Returns (PyStr (hex_of_bytes tx)) /\
    subscript (PyDict payload_7) "sourceBlockNumber"
      = subscript (TokensLocked tx_hash 110 "0xA1" 80001 "0xB2" 5 7)
          "blockNumber" /\
    subscript (PyDict payload_7) "sender" = subscript args "sender" /\
    subscript (PyDict payload_7) "receiver" = subscript args "receiver" /\
    subscript (PyDict payload_7) "amount" = subscript args "amount" /\
    subscript (PyDict payload_7) "nonce" = subscript args "nonce" /\
    subscript (PyDict payload_7) "destinationChainId"
      = subscript args "destinationChainId".
Proof.
  apply (process_event_copies_fields processor
           (TokensLocked tx_hash 110 "0xA1" 80001 "0xB2" 5 7)
           (PyDict payload_7) (start 115)).
  vm_compute. reflexivity.
Defined.

(** X8: [process_event] lets an exception through in one case only: the
    event is for the configured destination and its [transactionHash] is
    there but is not a byte string; the exception is [AttributeError]. *)
Theorem process_event_raises_iff (self : TransactionProcessor)
    (event : pyval) (s : state) (e : exn) :
  fst (process_event self event s) = Raises e <->
  (e = AttributeError /\
   exists args dest tx,
     subscript event "args" = Returns args /\
     subscript args "destinationChainId" = Returns dest /\
     py_ne dest (PyInt (chain_id (dest_chain_config self))) = false /\
     subscript event "transactionHash" = Returns tx /\
     forall bs, tx <> PyBytes bs).
Proof.
  split.
  - unfold process_event, try_except, bind, lift, logger, ret. simpl.
    read_field; [| discriminate].
    read_field; [| discriminate].
    destruct (py_ne x0 (PyInt (chain_id (dest_chain_config self)))) eqn:Hne;
      simpl.
    + read_field; discriminate.
    + read_field; [| discriminate].
      destruct (method_hex x1) as [h | e1] eqn:Ehex; simpl.
      * read_field; [| discriminate].
        read_field; [| discriminate].
        read_field; [| discriminate].
        read_field; [| discriminate].
        read_field; [| discriminate].
        discriminate.
      * pose proof (method_hex_raises _ _ Ehex) as ->. simpl.
        intro H. injection H as <-.
        split; [reflexivity |].
        exists x, x0, x1. repeat split; auto.
        intros bs ->. discriminate.
  - intros (-> & args & dest & tx & Hargs & Hdest & Hne & Htx & Hnot).
    unfold process_event, try_except, bind, lift, logger, ret. simpl.
    rewrite Hargs. simpl. rewrite Hdest. simpl. rewrite Hne. simpl.
    rewrite Htx. simpl.
    destruct tx; simpl; try reflexivity.
    elim (Hnot bs). reflexivity.
Qed.

(** The processor writes to the log and to nothing else. *)
Lemma process_event_frame (self : TransactionProcessor) (event : pyval)
    (s : state) :
  last_scanned_block (snd (process_event self event s))
    = last_scanned_block s /\
  filters (snd (process_event self event s)) = filters s /\
  posts (snd (process_event self event s)) = posts s /\
  head_reads (snd (process_event self event s)) = head_reads s.
Proof.
  unfold process_event, try_except, bind, lift, logger, ret. simpl.
  read_field; [| repeat split].
  read_field; [| repeat split].
  destruct (py_ne x0 (PyInt (chain_id (dest_chain_config self)))); simpl.
  - read_field; repeat split.
  - read_field; [| repeat split].
    destruct (method_hex x1) as [h | e1] eqn:Ehex; simpl.
    + read_field; [| repeat split].
      read_field; [| repeat split].
      read_field; [| repeat split].
      read_field; [| repeat split].
      read_field; [| repeat split].
      repeat split.
    + pose proof (method_hex_raises _ _ Ehex) as ->. simpl. repeat split.
Qed.

(** X9: an event that has every field, a byte-string hash and the
    configured destination is never dropped: the processor returns its
    payload, with the fields in the order of the source. *)
Theorem process_event_accepts_well_formed (self : TransactionProcessor)
    (event args dest block sender receiver amount nonce : pyval)
    (tx : list byte) (s : state) :
  subscript event "args" = Returns args ->
  subscript args "destinationChainId" = Returns dest ->
  py_eq dest (PyInt (chain_id (dest_chain_config self))) = true ->
  subscript event "transactionHash" = Returns (PyBytes tx) ->
  subscript event "blockNumber" = Returns block ->
  subscript args "sender" = Returns sender ->
  subscript args "receiver" = Returns receiver ->
  subscript args "amount" = Returns amount ->
  subscript args "nonce" = Returns nonce ->
  fst (process_event self event s) =
  Returns (Some (PyDict [ ("sourceTransactionHash", PyStr (hex_of_bytes tx));
                          ("sourceBlockNumber", block);
                          ("sender", sender);
                          ("receiver", receiver);
                          ("amount", amount);
                          ("nonce", nonce);
                          ("sourceChainId", PyInt (source_chain_id self));
                          ("destinationChainId", dest) ])).
Proof.
  intros Hargs Hdest Heq Htx Hblock Hsender Hreceiver Hamount Hnonce.
  unfold process_event, try_except, bind, lift, logger, ret, py_ne. simpl.
  rewrite Hargs. simpl. rewrite Hdest. simpl. rewrite Heq. simpl.
  rewrite Htx. simpl. rewrite Hblock. simpl. rewrite Hsender. simpl.
  rewrite Hreceiver. simpl. rewrite Hamount. simpl. rewrite Hnonce. simpl.
  reflexivity.
Qed.

Lemma process_event_accepts_well_formed_witness :
  fst (process_event processor
         (TokensLocked tx_hash 110 "0xA1" 80001 "0xB2" 5 7) (start 115)) =
  Returns (Some (PyDict [ ("sourceTransactionHash",
                           PyStr (hex_of_bytes [x12; xab]));
                          ("sourceBlockNumber", PyInt 110);
                          ("sender", PyStr "0xA1");
                          ("receiver", PyStr "0xB2");
                          ("amount", PyInt 5);
                          ("nonce", PyInt 7);
                          ("sourceChainId",
                           PyInt (source_chain_id processor));
                          ("destinationChainId", PyInt 80001) ])).
Proof.
  apply (process_event_accepts_well_formed processor
           (TokensLocked tx_hash 110 "0xA1" 80001 "0xB2" 5 7)
           (PyDict [ ("sender", PyStr "0xA1");
                     ("destinationChainId", PyInt 80001);
                     ("receiver", PyStr "0xB2");
                     ("amount", PyInt 5);
                     ("nonce", PyInt 7) ])).
  - reflexivity.
  - reflexivity.
  - reflexivity.
  - reflexivity.
  - reflexivity.
  - reflexivity.
  - reflexivity.
  - reflexivity.
  - reflexivity.
Defined.

(** * Further properties of the dispatcher and of the loop *)

(** Case analysis on every outcome a computation branches on. *)
Ltac split_outcomes :=
  repeat match goal with
         | |- context [match ?x with _ => _ end] =>
             lazymatch x with
             | context [match _ with _ => _ end] => fail
             | _ => destruct x; simpl
             end
         end.

Section PipelineProperties.

Variable keccak : string -> list byte.
Variable requests_post : nat -> pyval -> outcome Z.

Lemma simulate_api_call_frame (payload : pyval) (signature : string)
    (s : state) :
  posts (snd (_simulate_api_call requests_post payload signature s))
    = (posts s ++ [PyDict [ ("attestation",
                             PyDict [ ("payload", payload);
                                      ("signature", PyStr signature) ]) ]])%list
  /\
  last_scanned_block
    (snd (_simulate_api_call requests_post payload signature s))
    = last_scanned_block s.
Proof.
  unfold _simulate_api_call, try_except, bind, logger, post,
    raise_for_status, raise, lift, ret.
  simpl. split_outcomes; split; reflexivity.
Qed.

Lemma dispatch_cursor (self : CrossChainDispatcher) (payload : pyval)
    (s : state) :
  last_scanned_block (snd (dispatch keccak requests_post self payload s))
    = last_scanned_block s.
Proof.
  unfold dispatch, try_except, bind at 1, lift at 1.
  destruct (json_dumps payload) as [m | e].
  2: { unfold bind, lift, logger. split_outcomes; reflexivity. }
  unfold bind at 1, lift at 1.
  destruct (signHash self (keccak m)) as [sig | e].
  2: { unfold bind, lift, logger. split_outcomes; reflexivity. }
  unfold bind at 1, lift at 1.
  destruct (subscript payload "nonce") as [n | e].
  2: { unfold bind, lift, logger. split_outcomes; reflexivity. }
  unfold bind at 1, logger at 1. unfold bind at 1, logger at 1.
  match goal with
  | |- context [_simulate_api_call requests_post ?p ?sg ?st] =>
      pose proof (simulate_api_call_frame p sg st) as (_ & Hc);
      destruct (_simulate_api_call requests_post p sg st) as [[[] | e'] s2]
  end; simpl in *.
  - exact Hc.
  - unfold bind, lift, logger. split_outcomes; exact Hc.
Qed.

Lemma dispatch_signed_posts (self : CrossChainDispatcher)
    (d : list (string * pyval)) (s : state) (message : string)
    (signature : list byte) (nonce : pyval) :
  json_dumps (PyDict d) = Returns message ->
  signHash self (keccak message) = Returns signature ->
  dict_get "nonce" d = Some nonce ->
  posts (snd (dispatch keccak requests_post self (PyDict d) s))
    = (posts s ++ [attestation (PyDict d) signature])%list.
Proof.
  intros Hm Hsig Hnonce.
  unfold dispatch, try_except, bind at 1, lift at 1. rewrite Hm.
  unfold bind at 1, lift at 1. rewrite Hsig.
  unfold bind at 1, lift at 1. unfold subscript. rewrite Hnonce.
  unfold bind at 1, logger at 1. unfold bind at 1, logger at 1.
  match goal with
  | |- context [_simulate_api_call requests_post ?p ?sg ?st] =>
      pose proof (simulate_api_call_frame p sg st) as (Hp & _);
      destruct (_simulate_api_call requests_post p sg st) as [[[] | e'] s2]
  end; simpl in *.
  - exact Hp.
  - unfold bind, lift, logger. rewrite Hnonce.
    split_outcomes; exact Hp.
Qed.

(** X10: once the payload is serialized and signed, [dispatch] makes one
    request to the relayer, whatever the relayer then answers; its body
    holds the payload and the signature of the hash of the canonical
    message, in hexadecimal. *)
Theorem dispatch_posts_attestation (self : CrossChainDispatcher)
    (d : list (string * pyval)) (s : state) (message : string)
    (signature : list byte) (nonce : pyval) :
  json_dumps (PyDict d) = Returns message ->
  signHash self (keccak message) = Returns signature ->
  dict_get "nonce" d = Some nonce ->
  posts (snd (dispatch keccak requests_post self (PyDict d) s))
    = (posts s ++ [attestation (PyDict d) signature])%list.
Proof.
  intros Hm Hsig Hnonce.
  exact (dispatch_signed_posts self d s message signature nonce
           Hm Hsig Hnonce).
Qed.

(** X11: without a signature there is no request: when the payload cannot
    be serialized, signing fails, or the payload has no nonce to log,
    [dispatch] leaves the relayer alone. *)
Theorem dispatch_without_signature_posts_nothing
    (self : CrossChainDispatcher) (d : list (string * pyval)) (s : state) :
  ((exists e, json_dumps (PyDict d) = Raises e) \/
   (exists message e, json_dumps (PyDict d) = Returns message /\
                      signHash self (keccak message) = Raises e) \/
   dict_get "nonce" d = None) ->
  posts (snd (dispatch keccak requests_post self (PyDict d) s)) = posts s.
Proof.
  intros [(e & He) | [(m & e & Hm & He) | Hnonce]];
    unfold dispatch, try_except, bind at 1, lift at 1.
  - rewrite He. unfold bind, lift, logger. split_outcomes; reflexivity.
  - rewrite Hm. unfold bind at 1, lift at 1. rewrite He.
    unfold bind, lift, logger. split_outcomes; reflexivity.
  - destruct (json_dumps (PyDict d)) as [m | e].
    2: { unfold bind, lift, logger. split_outcomes; reflexivity. }
    unfold bind at 1, lift at 1.
    destruct (signHash self (keccak m)) as [sig | e].
    2: { unfold bind, lift, logger. split_outcomes; reflexivity. }
    unfold bind at 1, lift at 1. unfold subscript. rewrite Hnonce.
    simpl. unfold bind, lift, logger. simpl. rewrite Hnonce. reflexivity.
Qed.

End PipelineProperties.

Lemma dispatch_posts_attestation_witness :
  posts (snd (dispatch sample_hash recovering_relayer signer
                (PyDict payload_7) (start 115)))
    = (posts (start 115)
         ++ [attestation (PyDict payload_7)
               (sample_hash
                  (String.concat quote
                     [ "{"; "amount"; ": 5, "; "destinationChainId";
                       ": 80001, "; "nonce"; ": 7, "; "receiver"; ": ";
                       "0xB2"; ", "; "sender"; ": "; "0xA1"; ", ";
                       "sourceBlockNumber"; ": 110, "; "sourceChainId";
                       ": 11155111, "; "sourceTransactionHash"; ": ";
                       "12ab"; "}" ]) ++ [x01])])%list.
Proof.
  apply (dispatch_posts_attestation sample_hash recovering_relayer signer
           payload_7 (start 115)
           (String.concat quote
              [ "{"; "amount"; ": 5, "; "destinationChainId";
                ": 80001, "; "nonce"; ": 7, "; "receiver"; ": ";
                "0xB2"; ", "; "sender"; ": "; "0xA1"; ", ";
                "sourceBlockNumber"; ": 110, "; "sourceChainId";
                ": 11155111, "; "sourceTransactionHash"; ": ";
                "12ab"; "}" ])
           _ (PyInt 7)).
  - vm_compute. reflexivity.
  - reflexivity.
  - reflexivity.
Defined.

Lemma dispatch_without_signature_posts_nothing_witness :
  posts (snd (dispatch sample_hash recovering_relayer broken_signer
                (PyDict payload_7) (start 115)))
    = posts (start 115).
Proof.
  apply (dispatch_without_signature_posts_nothing sample_hash
           recovering_relayer broken_signer payload_7 (start 115)).
  right. left. eexists. exists ValueError.
  split; [vm_compute; reflexivity | reflexivity].
Defined.

Lemma meant_elsewhere_has_args (p : TransactionProcessor) (events : list pyval) :
  forallb (meant_elsewhere p) events = true ->
  forallb has_args events = true.
Proof.
  induction events as [| ev events IH]; simpl; [reflexivity |].
  intro H. apply andb_prop in H. destruct H as [Hev Hrest].
  rewrite (IH Hrest). unfold meant_elsewhere in Hev. unfold has_args.
  destruct (subscript ev "args"); [reflexivity | discriminate].
Qed.

Lemma process_event_skips (p : TransactionProcessor) (event : pyval)
    (s : state) :
  meant_elsewhere p event = true ->
  fst (process_event p event s) = Returns None.
Proof.
  unfold meant_elsewhere. intro H.
  unfold process_event, try_except, bind, lift, logger, ret. simpl.
  destruct (subscript event "args") as [args | e]; [| discriminate]. simpl.
  destruct (subscript args "destinationChainId") as [dest | e];
    [| discriminate].
  simpl. rewrite H. simpl.
  read_field; reflexivity.
Qed.

Lemma process_event_text_hash (p : TransactionProcessor) (event : pyval)
    (s : state) :
  has_text_hash p event = true ->
  fst (process_event p event s) = Raises AttributeError.
Proof.
  unfold has_text_hash. intro H.
  unfold process_event, try_except, bind, lift, logger, ret, py_ne. simpl.
  destruct (subscript event "args") as [args | e]; [| discriminate]. simpl.
  destruct (subscript args "destinationChainId") as [dest | e];
    [| discriminate].
  simpl. apply andb_prop in H. destruct H as [Heq Htx]. rewrite Heq. simpl.
  destruct (subscript event "transactionHash") as [tx | e]; [| discriminate].
  simpl. destruct tx; try discriminate; reflexivity.
Qed.

Section LoopProperties.

Variable keccak : string -> list byte.
Variable requests_post : nat -> pyval -> outcome Z.

(** A turn of the loop absorbs every error of the scan, the processing and
    the dispatch: the only exception that leaves it is [CancelledError]. *)
Lemma run_iteration_absorbs_errors (self : BridgeOrchestrator) (s : state)
    (e : exn) :
  fst (run_iteration keccak requests_post self s) = Raises e ->
  e = CancelledError.
Proof.
  unfold run_iteration, try_except.
  match goal with
  | |- context [match ?body s with _ => _ end] =>
      destruct (body s) as [[r | e0] s1]
  end; simpl.
  - discriminate.
  - destruct e0; simpl; try discriminate.
    intro H. injection H as <-. reflexivity.
Qed.


Lemma process_and_dispatch_skips (self : BridgeOrchestrator) (event : pyval)
    (s : state) :
  meant_elsewhere (tx_processor self) event = true ->
  fst (process_and_dispatch keccak requests_post self event s) = Returns tt /\
  posts (snd (process_and_dispatch keccak requests_post self event s))
    = posts s /\
  last_scanned_block
    (snd (process_and_dispatch keccak requests_post self event s))
    = last_scanned_block s.
Proof.
  intro H. unfold process_and_dispatch, bind.
  pose proof (process_event_skips (tx_processor self) event s H) as Hr.
  pose proof (process_event_frame (tx_processor self) event s)
    as (Hc & _ & Hp & _).
  destruct (process_event (tx_processor self) event s) as [[r | e] s1];
    simpl in *; [| discriminate].
  injection Hr as ->. simpl. auto.
Qed.

Lemma for_each_skips (self : BridgeOrchestrator) (events : list pyval)
    (s : state) :
  forallb (meant_elsewhere (tx_processor self)) events = true ->
  fst (for_each events (process_and_dispatch keccak requests_post self) s)
    = Returns tt /\
  posts (snd (for_each events
                (process_and_dispatch keccak requests_post self) s))
    = posts s /\
  last_scanned_block
    (snd (for_each events (process_and_dispatch keccak requests_post self) s))
    = last_scanned_block s.
Proof.
  revert s.
  induction events as [| ev events IH]; intros s H; simpl.
  - auto.
  - simpl in H. apply andb_prop in H. destruct H as [Hev Hrest].
    unfold bind.
    destruct (process_and_dispatch_skips self ev s Hev) as (Hr & Hp & Hc).
    destruct (process_and_dispatch keccak requests_post self ev s)
      as [[[] | e] s1]; simpl in *; [| discriminate].
    destruct (IH s1 Hrest) as (Hr' & Hp' & Hc').
    rewrite Hr', Hp', Hc'. auto.
Qed.

(** X12: a batch of events that are all for other chains is consumed
    without a single request to the relayer: the turn ends normally and
    the cursor has moved to [head - depth]. *)
Theorem run_iteration_skips_other_destinations (self : BridgeOrchestrator)
    (w : Web3) (s : state) (head : Z) (events : list pyval) :
  web3 (connector (event_scanner self)) = Some w ->
  is_connected w = true ->
  block_number w (head_reads s) = Returns head ->
  last_scanned_block s
    < head - confirmation_blocks (config (event_scanner self)) ->
  create_filter w (last_scanned_block s + 1)
    (head - confirmation_blocks (config (event_scanner self))) = Returns tt ->
  get_all_entries w (last_scanned_block s + 1)
    (head - confirmation_blocks (config (event_scanner self)))
    = Returns events ->
  forallb (meant_elsewhere (tx_processor self)) events = true ->
  fst (run_iteration keccak requests_post self s) = Returns true /\
  posts (snd (run_iteration keccak requests_post self s)) = posts s /\
  last_scanned_block (snd (run_iteration keccak requests_post self s))
    = head - confirmation_blocks (config (event_scanner self)).
Proof.
  intros Hw Hc Hhead Hlt Hfilter Hget Helse.
  destruct (scan_for_events_new_range (event_scanner self) w s head events
              Hw Hc Hhead Hlt Hfilter Hget
              (meant_elsewhere_has_args _ _ Helse))
    as (Hr & Hcur & _ & _ & Hp).
  enough (H : exists s',
             run_iteration keccak requests_post self s = (Returns true, s') /\
             posts s' = posts s /\
             last_scanned_block s'
               = head - confirmation_blocks (config (event_scanner self)))
    by (destruct H as (s' & -> & H1 & H2); simpl; auto).
  unfold run_iteration, try_except, bind at 1.
  destruct (scan_for_events (event_scanner self) s) as [[r | e] s1];
    simpl in Hr, Hcur, Hp; [| discriminate].
  injection Hr as ->.
  destruct events as [| ev events].
  - unfold bind, logger, ret. simpl. eexists. split; [reflexivity |].
    simpl. auto.
  - unfold bind at 1.
    destruct (for_each_skips self (ev :: events) s1 Helse)
      as (Hr' & Hp' & Hc').
    destruct (for_each (ev :: events)
                (process_and_dispatch keccak requests_post self) s1)
      as [[[] | e] s2]; simpl in Hr', Hp', Hc'; [| discriminate].
    unfold ret. simpl. exists s2. rewrite Hp', Hc'. auto.
Qed.

(** X13: the cursor is moved before the batch is processed, and the loop
    over the batch is not guarded: when the first event for the configured
    destination has a [transactionHash] that is not a byte string, the
    [AttributeError] ends the batch; the turn ends normally, nothing is
    sent for any event of the batch, and the cursor is already at
    [head - depth], so the batch is not fetched again. *)
Theorem run_iteration_drops_batch_on_text_hash (self : BridgeOrchestrator)
    (w : Web3) (s : state) (head : Z) (skipped : list pyval) (ev : pyval)
    (rest : list pyval) :
  web3 (connector (event_scanner self)) = Some w ->
  is_connected w = true ->
  block_number w (head_reads s) = Returns head ->
  last_scanned_block s
    < head - confirmation_blocks (config (event_scanner self)) ->
  create_filter w (last_scanned_block s + 1)
    (head - confirmation_blocks (config (event_scanner self))) = Returns tt ->
  get_all_entries w (last_scanned_block s + 1)
    (head - confirmation_blocks (config (event_scanner self)))
    = Returns (skipped ++ ev :: rest)%list ->
  forallb (meant_elsewhere (tx_processor self)) skipped = true ->
  has_text_hash (tx_processor self) ev = true ->
  forallb has_args rest = true ->
  fst (run_iteration keccak requests_post self s) = Returns true /\
  posts (snd (run_iteration keccak requests_post self s)) = posts s /\
  last_scanned_block (snd (run_iteration keccak requests_post self s))
    = head - confirmation_blocks (config (event_scanner self)).
Proof.
  intros Hw Hc Hhead Hlt Hfilter Hget Hskip Hev Hrest.
  assert (Hargs : forallb has_args (skipped ++ ev :: rest) = true).
  { rewrite forallb_app. rewrite (meant_elsewhere_has_args _ _ Hskip).
    simpl. rewrite Hrest. rewrite andb_true_r.
    unfold has_text_hash in Hev. unfold has_args.
    destruct (subscript ev "args"); [reflexivity | discriminate]. }
  destruct (scan_for_events_new_range (event_scanner self) w s head _
              Hw Hc Hhead Hlt Hfilter Hget Hargs)
    as (Hr & Hcur & _ & _ & Hp).
  enough (H : exists s',
             run_iteration keccak requests_post self s = (Returns true, s') /\
             posts s' = posts s /\
             last_scanned_block s'
               = head - confirmation_blocks (config (event_scanner self)))
    by (destruct H as (s' & -> & H1 & H2); simpl; auto).
  unfold run_iteration, try_except, bind at 1.
  destruct (scan_for_events (event_scanner self) s) as [[r | e] s1];
    simpl in Hr, Hcur, Hp; [| discriminate].
  injection Hr as ->.
  assert (Hloop : forall l st,
             forallb (meant_elsewhere (tx_processor self)) l = true ->
             exists st',
               for_each (l ++ ev :: rest)
                 (process_and_dispatch keccak requests_post self) st
                 = (Raises AttributeError, st') /\
               posts st' = posts st /\
               last_scanned_block st' = last_scanned_block st).
  { induction l as [| x l IH]; intros st Hl; simpl.
    - unfold bind at 1. unfold process_and_dispatch, bind.
      pose proof (process_event_text_hash (tx_processor self) ev st Hev)
        as Hraise.
      pose proof (process_event_frame (tx_processor self) ev st)
        as (Hc1 & _ & Hp1 & _).
      destruct (process_event (tx_processor self) ev st) as [[p | e] s2];
        simpl in *; [discriminate |].
      injection Hraise as ->. exists s2. auto.
    - simpl in Hl. apply andb_prop in Hl. destruct Hl as [Hx Hl].
      unfold bind at 1.
      destruct (process_and_dispatch_skips self x st Hx) as (Hr1 & Hp1 & Hc1).
      destruct (process_and_dispatch keccak requests_post self x st)
        as [[[] | e] s2]; simpl in *; [| discriminate].
      destruct (IH s2 Hl) as (st' & Hr2 & Hp2 & Hc2).
      exists st'. rewrite Hr2, Hp2, Hc2. auto. }
  destruct (Hloop skipped s1 Hskip) as (s2 & Hr' & Hp' & Hc').
  destruct (skipped ++ ev :: rest)%list as [| x l] eqn:Hl.
  - destruct skipped; discriminate.
  - unfold bind at 1. rewrite Hr'. simpl.
    unfold bind, logger, ret. simpl. eexists. split; [reflexivity |].
    simpl. rewrite Hp', Hc'. auto.
Qed.

End LoopProperties.

Example cancelled_turn :
  fst (run_iteration sample_hash recovering_relayer
         (bridge cancelled_node signer) (start 100))
    = Raises CancelledError.
Proof. vm_compute. reflexivity. Qed.

Lemma run_iteration_skips_other_destinations_witness :
  fst (run_iteration sample_hash recovering_relayer
         (bridge (node 300 [lock_for_elsewhere]) signer) (start 200))
    = Returns true /\
  posts (snd (run_iteration sample_hash recovering_relayer
                (bridge (node 300 [lock_for_elsewhere]) signer) (start 200)))
    = posts (start 200) /\
  last_scanned_block
    (snd (run_iteration sample_hash recovering_relayer
            (bridge (node 300 [lock_for_elsewhere]) signer) (start 200)))
    = 300 - confirmation_blocks
              (config (event_scanner
                         (bridge (node 300 [lock_for_elsewhere]) signer))).
Proof.
  apply (run_iteration_skips_other_destinations sample_hash
           recovering_relayer
           (bridge (node 300 [lock_for_elsewhere]) signer)
           (node 300 [lock_for_elsewhere]) (start 200) 300
           [lock_for_elsewhere]).
  - reflexivity.
  - reflexivity.
  - reflexivity.
  - simpl. lia.
  - reflexivity.
  - reflexivity.
  - reflexivity.
Defined.

Lemma run_iteration_drops_batch_on_text_hash_witness :
  fst (run_iteration sample_hash recovering_relayer
         (bridge (node 300 [lock_for_elsewhere; lock_with_text_hash;
                            lock_after]) signer) (start 200))
    = Returns true /\
  posts (snd (run_iteration sample_hash recovering_relayer
                (bridge (node 300 [lock_for_elsewhere; lock_with_text_hash;
                                   lock_after]) signer) (start 200)))
    = posts (start 200) /\
  last_scanned_block
    (snd (run_iteration sample_hash recovering_relayer
            (bridge (node 300 [lock_for_elsewhere; lock_with_text_hash;
                               lock_after]) signer) (start 200)))
    = 300 - confirmation_blocks
              (config (event_scanner
                         (bridge (node 300 [lock_for_elsewhere;
                                            lock_with_text_hash;
                                            lock_after]) signer))).
Proof.
  apply (run_iteration_drops_batch_on_text_hash sample_hash
           recovering_relayer
           (bridge (node 300 [lock_for_elsewhere; lock_with_text_hash;
                              lock_after]) signer)
           (node 300 [lock_for_elsewhere; lock_with_text_hash; lock_after])
           (start 200) 300
           [lock_for_elsewhere] lock_with_text_hash [lock_after]).
  - reflexivity.
  - reflexivity.
  - reflexivity.
  - simpl. lia.
  - reflexivity.
  - reflexivity.
  - reflexivity.
  - reflexivity.
  - reflexivity.
Defined.

Lemma json_dumps_payload_of (p : TransactionProcessor) (l : lock) :
  json_dumps (payload_of p l) = Returns (canonical (payload_of p l)).
Proof.
  unfold canonical.
  destruct (json_dumps (payload_of p l)) as [m | e] eqn:E; [reflexivity |].
  exfalso. revert E. unfold payload_of, payload_items. simpl.
  discriminate.
Qed.

Lemma process_event_event_of (p : TransactionProcessor) (l : lock)
    (s : state) :
  fst (process_event p (event_of (chain_id (dest_chain_config p)) l) s)
    = Returns (Some (payload_of p l)).
Proof.
  unfold process_event, try_except, bind, lift, logger, ret, py_ne,
    event_of, payload_of, payload_items.
  simpl. rewrite Z.eqb_refl. simpl. reflexivity.
Qed.

Lemma has_args_event_of (dest : Z) (locks : list lock) :
  forallb has_args (map (event_of dest) locks) = true.
Proof.
  induction locks as [| l locks IH]; simpl; [reflexivity | exact IH].
Qed.

Section Delivery.

Variable keccak : string -> list byte.
Variable requests_post : nat -> pyval -> outcome Z.
Variable sign : list byte -> list byte.

Lemma process_and_dispatch_delivers (self : BridgeOrchestrator) (l : lock)
    (s : state) :
  (forall h, signHash (dispatcher self) h = Returns (sign h)) ->
  (forall n body e, requests_post n body = Raises e ->
                    isinstance_Exception e = true) ->
  exists s',
    process_and_dispatch keccak requests_post self
      (event_of (chain_id (dest_chain_config (tx_processor self))) l) s
      = (Returns tt, s') /\
    posts s'
      = (posts s
           ++ [attestation (payload_of (tx_processor self) l)
                 (sign (keccak (canonical
                                  (payload_of (tx_processor self) l))))])%list
    /\
    last_scanned_block s' = last_scanned_block s.
Proof.
  intros Hsign Hpost.
  unfold process_and_dispatch, bind.
  pose proof (process_event_event_of (tx_processor self) l s) as Hr.
  pose proof (process_event_frame (tx_processor self)
                (event_of (chain_id (dest_chain_config (tx_processor self)))
                   l) s) as (Hc & _ & Hp & _).
  destruct (process_event (tx_processor self) _ s) as [[r | e] s1];
    simpl in Hr, Hc, Hp; [| discriminate].
  injection Hr as ->.
  change (truthy (payload_of (tx_processor self) l)) with true.
  cbv iota.
  assert (Hsign' : forall h e, signHash (dispatcher self) h = Raises e ->
                               isinstance_Exception e = true).
  { intros h e H. rewrite Hsign in H. discriminate. }
  pose proof (dispatch_returns keccak requests_post (dispatcher self)
                (payload_items (tx_processor self) l) s1 Hsign' Hpost)
    as Hret.
  pose proof (dispatch_signed_posts keccak requests_post (dispatcher self)
                (payload_items (tx_processor self) l) s1 _ _
                (PyInt (lock_nonce l))
                (json_dumps_payload_of (tx_processor self) l)
                (Hsign _) eq_refl) as Hposts.
  pose proof (dispatch_cursor keccak requests_post (dispatcher self)
                (payload_of (tx_processor self) l) s1) as Hcur.
  fold (payload_of (tx_processor self) l) in Hret, Hposts.
  destruct (dispatch keccak requests_post (dispatcher self)
              (payload_of (tx_processor self) l) s1)
    as [[[] | e] s2]; simpl in Hret, Hposts, Hcur; [| discriminate].
  exists s2. split; [reflexivity |].
  rewrite Hposts, Hcur, Hp, Hc. auto.
Qed.

Lemma for_each_delivers (self : BridgeOrchestrator) (locks : list lock)
    (s : state) :
  (forall h, signHash (dispatcher self) h = Returns (sign h)) ->
  (forall n body e, requests_post n body = Raises e ->
                    isinstance_Exception e = true) ->
  exists s',
    for_each
      (map (event_of (chain_id (dest_chain_config (tx_processor self))))
           locks)
      (process_and_dispatch keccak requests_post self) s = (Returns tt, s') /\
    posts s'
      = (posts s
           ++ map (fun l =>
                     attestation (payload_of (tx_processor self) l)
                       (sign (keccak (canonical
                                        (payload_of (tx_processor self) l)))))
                  locks)%list /\
    last_scanned_block s' = last_scanned_block s.
Proof.
  intros Hsign Hpost. revert s.
  induction locks as [| l locks IH]; intro s; simpl.
  - exists s. rewrite app_nil_r. auto.
  - unfold bind at 1.
    destruct (process_and_dispatch_delivers self l s Hsign Hpost)
      as (s1 & -> & Hp1 & Hc1).
    destruct (IH s1) as (s2 & -> & Hp2 & Hc2).
    exists s2. split; [reflexivity |].
    rewrite Hp2, Hp1, Hc2, Hc1. rewrite <- app_assoc. auto.
Qed.

(** X14: when the signer signs and the relayer does not cancel the task,
    a batch of well-typed logs for the configured destination leads to one
    request per log, in the order of the batch, each with the payload of
    its log and the signature of the hash of its canonical text; the
    answers of the relayer change nothing to that, and the cursor ends at
    [head - depth]. *)
Theorem run_iteration_delivers (self : BridgeOrchestrator) (w : Web3)
    (s : state) (head : Z) (locks : list lock) :
  web3 (connector (event_scanner self)) = Some w ->
  is_connected w = true ->
  block_number w (head_reads s) = Returns head ->
  last_scanned_block s
    < head - confirmation_blocks (config (event_scanner self)) ->
  create_filter w (last_scanned_block s + 1)
    (head - confirmation_blocks (config (event_scanner self))) = Returns tt ->
  get_all_entries w (last_scanned_block s + 1)
    (head - confirmation_blocks (config (event_scanner self)))
    = Returns
        (map (event_of (chain_id (dest_chain_config (tx_processor self))))
             locks) ->
  (forall h, signHash (dispatcher self) h = Returns (sign h)) ->
  (forall n body e, requests_post n body = Raises e ->
                    isinstance_Exception e = true) ->
  fst (run_iteration keccak requests_post self s) = Returns true /\
  posts (snd (run_iteration keccak requests_post self s))
    = (posts s
         ++ map (fun l =>
                   attestation (payload_of (tx_processor self) l)
                     (sign (keccak (canonical
                                      (payload_of (tx_processor self) l)))))
                locks)%list /\
  last_scanned_block (snd (run_iteration keccak requests_post self s))
    = head - confirmation_blocks (config (event_scanner self)).
Proof.
  intros Hw Hc Hhead Hlt Hfilter Hget Hsign Hpost.
  destruct (scan_for_events_new_range (event_scanner self) w s head _
              Hw Hc Hhead Hlt Hfilter Hget (has_args_event_of _ locks))
    as (Hr & Hcur & _ & _ & Hp).
  enough (H : exists s',
             run_iteration keccak requests_post self s = (Returns true, s') /\
             posts s'
               = (posts s
                    ++ map (fun l =>
                              attestation (payload_of (tx_processor self) l)
                                (sign (keccak
                                         (canonical
                                            (payload_of (tx_processor self)
                                               l)))))
                           locks)%list /\
             last_scanned_block s'
               = head - confirmation_blocks (config (event_scanner self)))
    by (destruct H as (s' & -> & H1 & H2); simpl; auto).
  unfold run_iteration, try_except, bind at 1.
  destruct (scan_for_events (event_scanner self) s) as [[r | e] s1];
    simpl in Hr, Hcur, Hp; [| discriminate].
  injection Hr as ->.
  destruct (for_each_delivers self locks s1 Hsign Hpost)
    as (s2 & Hloop & Hp2 & Hc2).
  destruct locks as [| l locks].
  - unfold bind, logger, ret. simpl. eexists. split; [reflexivity |].
    simpl. rewrite app_nil_r. auto.
  - unfold bind at 1.
    change (map (event_of (chain_id (dest_chain_config (tx_processor self))))
              (l :: locks))
      with (event_of (chain_id (dest_chain_config (tx_processor self))) l
            :: map (event_of (chain_id
                                (dest_chain_config (tx_processor self))))
                   locks) in *.
    cbv iota. rewrite Hloop. unfold ret. simpl.
    exists s2. rewrite Hp2, Hc2, Hp, Hcur. auto.
Qed.

End Delivery.

Lemma run_iteration_delivers_witness :
  fst (run_iteration sample_hash recovering_relayer
         (bridge (node 300 (map (event_of 80001) two_transfers)) signer)
         (start 200))
    = Returns true /\
  posts (snd (run_iteration sample_hash recovering_relayer
                (bridge (node 300 (map (event_of 80001) two_transfers))
                   signer) (start 200)))
    = (posts (start 200)
         ++ map (fun l =>
                   attestation (payload_of processor l)
                     ((fun h => h ++ [x01])%list
                        (sample_hash (canonical (payload_of processor l)))))
                two_transfers)%list /\
  last_scanned_block
    (snd (run_iteration sample_hash recovering_relayer
            (bridge (node 300 (map (event_of 80001) two_transfers)) signer)
            (start 200)))
    = 300 - confirmation_blocks sepolia.
Proof.
  apply (run_iteration_delivers sample_hash recovering_relayer
           (fun h => h ++ [x01])%list
           (bridge (node 300 (map (event_of 80001) two_transfers)) signer)
           (node 300 (map (event_of 80001) two_transfers))
           (start 200) 300 two_transfers).
  - reflexivity.
  - reflexivity.
  - reflexivity.
  - simpl. lia.
  - reflexivity.
  - reflexivity.
  - intro h. reflexivity.
  - intros n body e H. destruct n; discriminate.
Defined.

(** * Properties of the construction *)

Section StartupProperties.

Variable provider : nat -> pyval -> outcome Web3.
Variable eth_chain_id : Web3 -> outcome Z.
Variable to_checksum_address : pyval -> outcome string.
Variable from_key : pyval -> outcome CrossChainDispatcher.

(** X15: [connect] never lets an [Exception] through, and the client it
    leaves in [web3], if any, is one that answered [is_connected]. *)
Theorem connect_leaves_connected_client_or_none (self : connector_object)
    (s : state) :
  (exists self',
     fst (connect provider eth_chain_id self s) = Returns self' /\
     conn_attempts self' = S (conn_attempts self) /\
     (conn_web3 self' = None \/
      exists w, conn_web3 self' = Some w /\ is_connected w = true)) \/
  (exists e,
     fst (connect provider eth_chain_id self s) = Raises e /\
     isinstance_Exception e = false).
Proof.
  unfold connect, try_except, bind, lift, logger, raise, ret.
  destruct (provider (conn_attempts self) (conn_rpc_url self)) as [w | e];
    simpl.
  - destruct (is_connected w) eqn:Hc; simpl.
    + destruct (eth_chain_id w) as [c | e]; simpl.
      * left. eexists. split; [reflexivity |]. simpl.
        split; [reflexivity |]. right. exists w. auto.
      * destruct (isinstance_Exception e) eqn:He; simpl.
        -- left. eexists. split; [reflexivity |]. simpl. auto.
        -- right. exists e. auto.
    + left. eexists. split; [reflexivity |]. simpl. auto.
  - destruct (isinstance_Exception e) eqn:He; simpl.
    + left. eexists. split; [reflexivity |]. simpl. auto.
    + right. exists e. auto.
Qed.

Lemma connect_cursor (self : connector_object) (s : state) :
  last_scanned_block (snd (connect provider eth_chain_id self s))
    = last_scanned_block s.
Proof.
  unfold connect, try_except, bind, lift, logger, raise, ret.
  split_outcomes; reflexivity.
Qed.

Lemma get_contract_cursor (self : connector_object) (address : pyval)
    (s : state) :
  last_scanned_block
    (snd (get_contract provider eth_chain_id to_checksum_address self
            address s))
    = last_scanned_block s.
Proof.
  unfold get_contract, bind at 1.
  destruct (is_up self).
  - unfold ret, bind, lift. split_outcomes; reflexivity.
  - unfold bind at 1, logger at 1.
    match goal with
    | |- context [connect provider eth_chain_id self ?st] =>
        pose proof (connect_cursor self st) as Hc;
        destruct (connect provider eth_chain_id self st) as [[c | e] s1]
    end; simpl in *.
    + unfold ret, bind, lift. split_outcomes; exact Hc.
    + exact Hc.
Qed.

Lemma initialize_contract_cursor (connector : connector_object)
    (config : pyval) (s : state) :
  last_scanned_block
    (snd (_initialize_contract provider eth_chain_id to_checksum_address
            connector config s))
    = last_scanned_block s.
Proof.
  unfold _initialize_contract, bind at 1, lift at 1.
  destruct (subscript config "bridge_contract_address") as [a | e];
    [| reflexivity].
  unfold bind at 1, logger at 1. unfold bind at 1.
  match goal with
  | |- context [get_contract _ _ _ connector a ?st] =>
      pose proof (get_contract_cursor connector a st) as Hc;
      destruct (get_contract provider eth_chain_id to_checksum_address
                  connector a st) as [[r | e] s1]
  end; simpl in *.
  - unfold raise, ret. destruct (snd r); exact Hc.
  - exact Hc.
Qed.

(** The scanner cannot be built from a dictionary without ['listener']. *)
Lemma scanner_init_without_listener (connector : connector_object)
    (config : pyval) (s : state) (e0 : exn) :
  subscript config "listener" = Raises e0 ->
  exists e s1,
    EventScanner_init provider eth_chain_id to_checksum_address connector
      config s = (Raises e, s1) /\
    last_scanned_block s1 = last_scanned_block s /\
    ((exists r,
        fst (_initialize_contract provider eth_chain_id to_checksum_address
               connector config s) = Returns r) ->
     e = e0).
Proof.
  intro Hl.
  unfold EventScanner_init, bind at 1.
  pose proof (initialize_contract_cursor connector config s) as Hc.
  destruct (_initialize_contract provider eth_chain_id to_checksum_address
              connector config s) as [[r | e] s1]; simpl in Hc.
  - unfold bind at 1, _get_initial_start_block, bind at 1, lift at 1.
    rewrite Hl. exists e0, s1. auto.
  - exists e, s1. split; [reflexivity |]. split; [exact Hc |].
    intros (r & Hr). discriminate.
Qed.

(** X16: [EventScanner.__init__] reads [config['listener']] from the
    dictionary it is given.  Given one without that key it never returns a
    scanner: it raises, [KeyError('listener')] once the contract is
    there, and the cursor is never set. *)
Theorem scanner_init_needs_listener (connector : connector_object)
    (d : list (string * pyval)) (s : state) :
  dict_get "listener" d = None ->
  (exists e,
     fst (EventScanner_init provider eth_chain_id to_checksum_address
            connector (PyDict d) s) = Raises e /\
     ((exists r,
         fst (_initialize_contract provider eth_chain_id to_checksum_address
                connector (PyDict d) s) = Returns r) ->
      e = KeyError "listener")) /\
  last_scanned_block
    (snd (EventScanner_init provider eth_chain_id to_checksum_address
            connector (PyDict d) s))
    = last_scanned_block s.
Proof.
  intro Hd.
  assert (Hl : subscript (PyDict d) "listener" = Raises (KeyError "listener"))
    by (simpl; rewrite Hd; reflexivity).
  destruct (scanner_init_without_listener connector (PyDict d) s _ Hl)
    as (e & s1 & -> & Hc & He).
  simpl. split; [| exact Hc].
  exists e. auto.
Qed.

Lemma never_returns_raise {A} (e : exn) : never_returns (@raise A e).
Proof. intro s. exists e, s. reflexivity. Qed.

Lemma never_returns_bind_l {A B} (m : Py A) (k : A -> Py B) :
  never_returns m -> never_returns (bind m k).
Proof.
  intros H s. destruct (H s) as (e & s1 & Hm).
  exists e, s1. unfold bind. rewrite Hm. reflexivity.
Qed.

Lemma never_returns_bind_r {A B} (m : Py A) (k : A -> Py B) :
  (forall a, never_returns (k a)) -> never_returns (bind m k).
Proof.
  intros H s. unfold bind.
  destruct (m s) as [[a | e] s1].
  - apply H.
  - exists e, s1. reflexivity.
Qed.

Lemma never_returns_bind_lift {A B} (a : A) (k : A -> Py B) :
  never_returns (k a) -> never_returns (bind (lift (Returns a)) k).
Proof. intros H s. unfold bind, lift. apply H. Qed.

Lemma orchestrator_init_never_returns (config source : pyval) (e0 : exn) :
  subscript config "source_chain" = Returns source ->
  subscript source "listener" = Raises e0 ->
  never_returns
    (BridgeOrchestrator_init provider eth_chain_id to_checksum_address
       from_key config).
Proof.
  intros Hsource Hlistener.
  unfold BridgeOrchestrator_init.
  apply never_returns_bind_r; intros _.
  apply never_returns_bind_r; intro listener.
  apply never_returns_bind_r; intro interval.
  apply never_returns_bind_r; intro validator.
  apply never_returns_bind_r; intro key.
  destruct (negb (truthy key)); [apply never_returns_raise |].
  rewrite Hsource. apply never_returns_bind_lift.
  apply never_returns_bind_r; intro name.
  apply never_returns_bind_r; intro rpc_url.
  apply never_returns_bind_r; intro connector.
  apply never_returns_bind_l.
  intro s.
  destruct (scanner_init_without_listener connector source s e0 Hlistener)
    as (e & s1 & H & _).
  exists e, s1. exact H.
Qed.

(** X17: the orchestrator hands [config['source_chain']] to the scanner
    and adds the ['listener'] entry to it only after the scanner is built.
    With a configuration whose source chain has no ['listener'] entry of
    its own, as in [CONFIG], [BridgeOrchestrator.__init__] raises in every
    environment: no orchestrator is ever built. *)
Theorem orchestrator_init_needs_listener_in_source_chain
    (config source : pyval) (e0 : exn) (s : state) :
  subscript config "source_chain" = Returns source ->
  subscript source "listener" = Raises e0 ->
  exists e,
    fst (BridgeOrchestrator_init provider eth_chain_id to_checksum_address
           from_key config s) = Raises e.
Proof.
  intros Hsource Hlistener.
  destruct (orchestrator_init_never_returns config source e0
              Hsource Hlistener s) as (e & s1 & ->).
  exists e. reflexivity.
Qed.

(** X18: so [main] never enters [run] with such a configuration: it
    either reports a [ValueError] or a [RuntimeError] of the construction
    and returns, or lets the exception of the construction through. *)
Theorem main_never_runs (run : orchestrator_object -> Py unit)
    (config source : pyval) (e0 : exn) (s : state) :
  subscript config "source_chain" = Returns source ->
  subscript source "listener" = Raises e0 ->
  exists e s1,
    BridgeOrchestrator_init provider eth_chain_id to_checksum_address
      from_key config s = (Raises e, s1) /\
    main provider eth_chain_id to_checksum_address from_key run config s =
    (if isinstance_ValueError_or_RuntimeError e
     then (Returns tt,
           snd (logger CRITICAL "Failed to initialize orchestrator" s1))
     else (Raises e, s1)).
Proof.
  intros Hsource Hlistener.
  destruct (orchestrator_init_never_returns config source e0
              Hsource Hlistener s) as (e & s1 & H).
  exists e, s1. split; [exact H |].
  unfold main, try_except, bind. rewrite H.
  destruct (isinstance_ValueError_or_RuntimeError e); reflexivity.
Qed.

(** X19: with the configuration of the script, a key, a node that answers
    and a valid contract address, [main] ends with
    [KeyError('listener')], which its [except (ValueError, RuntimeError)]
    does not catch; the cursor was never set. *)
Theorem main_raises_KeyError_on_CONFIG (run : orchestrator_object -> Py unit)
    (source_rpc_url bridge_contract dest_rpc_url : string) (key : pyval)
    (w : Web3) (chain : Z) (checksum : string) (s : state) :
  truthy key = true ->
  provider O (PyStr source_rpc_url) = Returns w ->
  is_connected w = true ->
  eth_chain_id w = Returns chain ->
  to_checksum_address (PyStr bridge_contract) = Returns checksum ->
  fst (main provider eth_chain_id to_checksum_address from_key run
         (CONFIG source_rpc_url bridge_contract dest_rpc_url key) s)
    = Raises (KeyError "listener") /\
  last_scanned_block
    (snd (main provider eth_chain_id to_checksum_address from_key run
            (CONFIG source_rpc_url bridge_contract dest_rpc_url key) s))
    = last_scanned_block s.
Proof.
  intros Hkey Hprov Hconn Hchain Hsum.
  unfold main, try_except, BridgeOrchestrator_init, BlockchainConnector_init,
    EventScanner_init, _initialize_contract, get_contract, is_up,
    _get_initial_start_block, connect, try_except, bind, lift, logger,
    raise, ret, CONFIG.
  simpl. rewrite Hkey. simpl. rewrite Hprov. simpl. rewrite Hconn. simpl.
  rewrite Hchain. simpl. rewrite Hconn. simpl. rewrite Hsum. simpl.
  split; reflexivity.
Qed.

(** X20: without a validator key the construction stops at its first
    check: [main] logs the failure and returns, and nothing else was
    done: no client was built, the cursor is untouched. *)
Theorem main_without_key (run : orchestrator_object -> Py unit)
    (config listener interval validator key : pyval) (s : state) :
  subscript config "listener" = Returns listener ->
  subscript listener "poll_interval_seconds" = Returns interval ->
  subscript config "validator" = Returns validator ->
  method_get validator "private_key" PyNone = Returns key ->
  truthy key = false ->
  main provider eth_chain_id to_checksum_address from_key run config s =
  (Returns tt,
   mkState (last_scanned_block s) (confirmation_depth s) (head_reads s)
     (filters s) (posts s)
     (logged s ++ [ (INFO, "Initializing Bridge Orchestrator...");
                    (CRITICAL, "Failed to initialize orchestrator") ])).
Proof.
  intros Hl Hi Hv Hk Ht.
  unfold main, try_except, BridgeOrchestrator_init, bind, lift, logger,
    raise, ret.
  simpl. rewrite Hl. simpl. rewrite Hi. simpl. rewrite Hv. simpl.
  rewrite Hk. simpl. rewrite Ht. simpl.
  rewrite <- app_assoc. reflexivity.
Qed.

End StartupProperties.

Lemma scanner_init_needs_listener_witness :
  (exists e,
     fst (EventScanner_init sample_provider sample_chain_id sample_checksum
            sample_connector (PyDict sample_source_chain) (start 0))
       = Raises e /\
     ((exists r,
         fst (_initialize_contract sample_provider sample_chain_id
                sample_checksum sample_connector
                (PyDict sample_source_chain) (start 0)) = Returns r) ->
      e = KeyError "listener")) /\
  last_scanned_block
    (snd (EventScanner_init sample_provider sample_chain_id sample_checksum
            sample_connector (PyDict sample_source_chain) (start 0)))
    = last_scanned_block (start 0).
Proof.
  apply (scanner_init_needs_listener sample_provider sample_chain_id
           sample_checksum sample_connector sample_source_chain (start 0)).
  reflexivity.
Defined.

Lemma orchestrator_init_needs_listener_in_source_chain_witness :
  exists e,
    fst (BridgeOrchestrator_init sample_provider sample_chain_id
           sample_checksum sample_from_key (sample_CONFIG (PyStr "0xkey"))
           (start 0)) = Raises e.
Proof.
  apply (orchestrator_init_needs_listener_in_source_chain sample_provider
           sample_chain_id sample_checksum sample_from_key
           (sample_CONFIG (PyStr "0xkey")) (PyDict sample_source_chain)
           (KeyError "listener") (start 0)).
  - reflexivity.
  - reflexivity.
Defined.

Lemma main_never_runs_witness :
  exists e s1,
    BridgeOrchestrator_init dead_provider sample_chain_id sample_checksum
      sample_from_key (sample_CONFIG (PyStr "0xkey")) (start 0)
      = (Raises e, s1) /\
    main dead_provider sample_chain_id sample_checksum sample_from_key
      sample_run (sample_CONFIG (PyStr "0xkey")) (start 0) =
    (if isinstance_ValueError_or_RuntimeError e
     then (Returns tt,
           snd (logger CRITICAL "Failed to initialize orchestrator" s1))
     else (Raises e, s1)).
Proof.
  apply (main_never_runs dead_provider sample_chain_id sample_checksum
           sample_from_key sample_run (sample_CONFIG (PyStr "0xkey"))
           (PyDict sample_source_chain) (KeyError "listener") (start 0)).
  - reflexivity.
  - reflexivity.
Defined.

Lemma main_raises_KeyError_on_CONFIG_witness :
  fst (main sample_provider sample_chain_id sample_checksum sample_from_key
         sample_run
         (CONFIG "https://rpc.sepolia.org"
            "0x7a250d5630B4cF539739dF2C5dAcb4c659F2488D"
            "https://rpc-mumbai.maticvigil.com" (PyStr "0xkey")) (start 0))
    = Raises (KeyError "listener") /\
  last_scanned_block
    (snd (main sample_provider sample_chain_id sample_checksum
            sample_from_key sample_run
            (CONFIG "https://rpc.sepolia.org"
               "0x7a250d5630B4cF539739dF2C5dAcb4c659F2488D"
               "https://rpc-mumbai.maticvigil.com" (PyStr "0xkey"))
            (start 0)))
    = last_scanned_block (start 0).
Proof.
  apply (main_raises_KeyError_on_CONFIG sample_provider sample_chain_id
           sample_checksum sample_from_key sample_run
           "https://rpc.sepolia.org"
           "0x7a250d5630B4cF539739dF2C5dAcb4c659F2488D"
           "https://rpc-mumbai.maticvigil.com" (PyStr "0xkey")
           (node 300 []) 11155111
           "0x7a250d5630B4cF539739dF2C5dAcb4c659F2488D" (start 0)).
  - reflexivity.
  - reflexivity.
  - reflexivity.
  - reflexivity.
  - reflexivity.
Defined.

Lemma main_without_key_witness :
  main sample_provider sample_chain_id sample_checksum sample_from_key
    sample_run (sample_CONFIG PyNone) (start 0) =
  (Returns tt,
   mkState (last_scanned_block (start 0)) (confirmation_depth (start 0))
     (head_reads (start 0)) (filters (start 0)) (posts (start 0))
     (logged (start 0)
        ++ [ (INFO, "Initializing Bridge Orchestrator...");
             (CRITICAL, "Failed to initialize orchestrator") ])).
Proof.
  apply (main_without_key sample_provider sample_chain_id sample_checksum
           sample_from_key sample_run (sample_CONFIG PyNone)
           (PyDict [ ("poll_interval_seconds", PyInt 10);
                     ("start_block", PyStr "latest") ])
           (PyInt 10)
           (PyDict [ ("private_key", PyNone) ])
           PyNone (start 0)).
  - reflexivity.
  - reflexivity.
  - reflexivity.
  - reflexivity.
  - reflexivity.
Defined.

Section StartupFailures.

Variable provider : nat -> pyval -> outcome Web3.
Variable eth_chain_id : Web3 -> outcome Z.
Variable to_checksum_address : pyval -> outcome string.
Variable from_key : pyval -> outcome CrossChainDispatcher.

(** X21: when neither the first connection nor the reconnection of
    [get_contract] gives a connected client, the scanner raises
    [RuntimeError], which [main] reports before it returns; the loop is
    not entered and the cursor is not set. *)
Theorem main_reports_connection_failure
    (run : orchestrator_object -> Py unit)
    (source_rpc_url bridge_contract dest_rpc_url : string) (key : pyval)
    (s : state) :
  truthy key = true ->
  (forall n,
     match provider n (PyStr source_rpc_url) with
     | Returns w => is_connected w = false
     | Raises e => isinstance_Exception e = true
     end) ->
  fst (main provider eth_chain_id to_checksum_address from_key run
         (CONFIG source_rpc_url bridge_contract dest_rpc_url key) s)
    = Returns tt /\
  fst (BridgeOrchestrator_init provider eth_chain_id to_checksum_address
         from_key (CONFIG source_rpc_url bridge_contract dest_rpc_url key) s)
    = Raises RuntimeError /\
  last_scanned_block
    (snd (main provider eth_chain_id to_checksum_address from_key run
            (CONFIG source_rpc_url bridge_contract dest_rpc_url key) s))
    = last_scanned_block s.
Proof.
  intros Hkey Hdown.
  assert (Hinit : exists s1,
             BridgeOrchestrator_init provider eth_chain_id
               to_checksum_address from_key
               (CONFIG source_rpc_url bridge_contract dest_rpc_url key) s
               = (Raises RuntimeError, s1) /\
             last_scanned_block s1 = last_scanned_block s).
  { pose proof (Hdown O) as H0. pose proof (Hdown 1%nat) as H1.
    unfold BridgeOrchestrator_init, BlockchainConnector_init,
      EventScanner_init, _initialize_contract, get_contract, is_up,
      connect, try_except, bind, lift, logger, raise, ret, CONFIG.
    simpl. rewrite Hkey. simpl.
    destruct (provider O (PyStr source_rpc_url)) as [w0 | e0]; simpl;
      rewrite H0; simpl;
      destruct (provider 1%nat (PyStr source_rpc_url)) as [w1 | e1]; simpl;
      rewrite H1; simpl; eexists; split; reflexivity. }
  destruct Hinit as (s1 & Hinit & Hcur).
  unfold main, try_except, bind. rewrite Hinit. simpl.
  auto.
Qed.

End StartupFailures.

Lemma main_reports_connection_failure_witness :
  fst (main dead_provider sample_chain_id sample_checksum sample_from_key
         sample_run
         (CONFIG "https://rpc.sepolia.org"
            "0x7a250d5630B4cF539739dF2C5dAcb4c659F2488D"
            "https://rpc-mumbai.maticvigil.com" (PyStr "0xkey")) (start 0))
    = Returns tt /\
  fst (BridgeOrchestrator_init dead_provider sample_chain_id sample_checksum
         sample_from_key
         (CONFIG "https://rpc.sepolia.org"
            "0x7a250d5630B4cF539739dF2C5dAcb4c659F2488D"
            "https://rpc-mumbai.maticvigil.com" (PyStr "0xkey")) (start 0))
    = Raises RuntimeError /\
  last_scanned_block
    (snd (main dead_provider sample_chain_id sample_checksum sample_from_key
            sample_run
            (CONFIG "https://rpc.sepolia.org"
               "0x7a250d5630B4cF539739dF2C5dAcb4c659F2488D"
               "https://rpc-mumbai.maticvigil.com" (PyStr "0xkey"))
            (start 0)))
    = last_scanned_block (start 0).
Proof.
  apply (main_reports_connection_failure dead_provider sample_chain_id
           sample_checksum sample_from_key sample_run
           "https://rpc.sepolia.org"
           "0x7a250d5630B4cF539739dF2C5dAcb4c659F2488D"
           "https://rpc-mumbai.maticvigil.com" (PyStr "0xkey") (start 0)).
  - reflexivity.
  - intro n. reflexivity.
Defined.

(** X22: the block the scanner starts from: with ['latest'] it is the
    head the node reports at construction, with an integer that integer
    (a boolean counts as 0 or 1) and the node is not asked; nothing else
    gives a start block. *)
Theorem initial_start_block_policy (connector : connector_object)
    (config : pyval) (s : state) (n : Z) :
  fst (_get_initial_start_block connector config s) = Returns n ->
  exists listener start_block_config,
    subscript config "listener" = Returns listener /\
    subscript listener "start_block" = Returns start_block_config /\
    ((start_block_config = PyStr "latest" /\
      exists w, conn_web3 connector = Some w /\
                block_number w (head_reads s) = Returns n /\
                head_reads (snd (_get_initial_start_block connector config s))
                  = S (head_reads s)) \/
     ((start_block_config = PyInt n \/
       exists b, start_block_config = PyBool b /\ n = if b then 1 else 0) /\
      snd (_get_initial_start_block connector config s) = s)).
Proof.
  unfold _get_initial_start_block, bind, lift, raise, ret, eth_block_number.
  destruct (subscript config "listener") as [listener | e] eqn:El; simpl;
    [| discriminate].
  destruct (subscript listener "start_block") as [start | e] eqn:Es; simpl;
    [| discriminate].
  intro H. exists listener, start. split; [reflexivity |].
  split; [exact Es |]. clear Es.
  destruct start as [| b | z | t | bs | l | d]; simpl in H;
    try discriminate.
  - right. injection H as <-. split; [| reflexivity].
    right. exists b. auto.
  - right. injection H as <-. split; [| reflexivity]. left. reflexivity.
  - destruct (String.eqb t "latest") eqn:Et; simpl in H.
    + apply String.eqb_eq in Et. subst t.
      left. split; [reflexivity |].
      destruct (conn_web3 connector) as [w |]; [| discriminate].
      exists w. split; [reflexivity |]. simpl in *.
      destruct (block_number w (head_reads s)); [| discriminate].
      simpl in H. injection H as <-. auto.
    + discriminate.
Qed.

Lemma initial_start_block_policy_witness :
  exists listener start_block_config,
    subscript (PyDict [ ("listener",
                         PyDict [ ("start_block", PyStr "latest") ]) ])
      "listener" = Returns listener /\
    subscript listener "start_block" = Returns start_block_config /\
    ((start_block_config = PyStr "latest" /\
      exists w, conn_web3 sample_connector = Some w /\
                block_number w (head_reads (start 0)) = Returns 300 /\
                head_reads
                  (snd (_get_initial_start_block sample_connector
                          (PyDict [ ("listener",
                                     PyDict [ ("start_block",
                                               PyStr "latest") ]) ])
                          (start 0)))
                  = S (head_reads (start 0))) \/
     ((start_block_config = PyInt 300 \/
       exists b, start_block_config = PyBool b /\ 300 = if b then 1 else 0)
      /\
      snd (_get_initial_start_block sample_connector
             (PyDict [ ("listener",
                        PyDict [ ("start_block", PyStr "latest") ]) ])
             (start 0)) = start 0)).
Proof.
  apply (initial_start_block_policy sample_connector
           (PyDict [ ("listener",
                      PyDict [ ("start_block", PyStr "latest") ]) ])
           (start 0) 300).
  reflexivity.
Defined.

(** * Properties of the loop of [run] *)

Section RunLoopProperties.

Variable keccak : string -> list byte.
Variable requests_post : nat -> pyval -> outcome Z.

Lemma run_iteration_unavailable (self : BridgeOrchestrator) (s : state) :
  (web3 (connector (event_scanner self)) = None \/
   exists w, web3 (connector (event_scanner self)) = Some w /\
             is_connected w = false) ->
  exists s1,
    run_iteration keccak requests_post self s = (Returns true, s1) /\
    last_scanned_block s1 = last_scanned_block s /\
    head_reads s1 = head_reads s /\
    filters s1 = filters s /\
    posts s1 = posts s.
Proof.
  intro Hdown.
  destruct (scan_for_events_unavailable (event_scanner self) s Hdown)
    as (Hr & Hc & Hf & Hh).
  assert (Hp : posts (snd (scan_for_events (event_scanner self) s))
               = posts s).
  { unfold scan_for_events, bind. simpl.
    destruct Hdown as [Hn | (w & Hw & Hd)].
    - rewrite Hn. reflexivity.
    - rewrite Hw, Hd. reflexivity. }
  unfold run_iteration, try_except, bind at 1.
  destruct (scan_for_events (event_scanner self) s) as [[r | e] s1];
    simpl in *; [| discriminate].
  injection Hr as ->.
  unfold bind, logger, ret. simpl.
  eexists. split; [reflexivity |]. simpl. auto.
Qed.

(** X23: while the connector is down the loop keeps turning: after any
    number of turns it is still running, nothing was asked of the node,
    nothing was sent, and the cursor is where it was. *)
Theorem run_loop_polls_while_connector_down (self : BridgeOrchestrator)
    (turns : nat) (s : state) :
  (web3 (connector (event_scanner self)) = None \/
   exists w, web3 (connector (event_scanner self)) = Some w /\
             is_connected w = false) ->
  fst (run_loop keccak requests_post turns self s) = Returns true /\
  last_scanned_block (snd (run_loop keccak requests_post turns self s))
    = last_scanned_block s /\
  head_reads (snd (run_loop keccak requests_post turns self s))
    = head_reads s /\
  filters (snd (run_loop keccak requests_post turns self s)) = filters s /\
  posts (snd (run_loop keccak requests_post turns self s)) = posts s.
Proof.
  intro Hdown. revert s.
  induction turns as [| n IH]; intro s.
  - simpl. auto.
  - destruct (run_iteration_unavailable self s Hdown)
      as (s1 & Hrun & Hc & Hh & Hf & Hp).
    assert (Hstep : run_loop keccak requests_post (S n) self s
                    = run_loop keccak requests_post n self s1).
    { simpl. unfold bind at 1. rewrite Hrun. reflexivity. }
    rewrite Hstep.
    destruct (IH s1) as (H1 & H2 & H3 & H4 & H5).
    rewrite H1, H2, H3, H4, H5. auto.
Qed.

(** X24: a [KeyboardInterrupt] stops the loop at the turn it arrives in:
    however many turns were still to come, [is_running] is false after
    that turn and the node is not read again. *)
Theorem run_loop_stops_on_KeyboardInterrupt (self : BridgeOrchestrator)
    (w : Web3) (turns : nat) (s : state) :
  web3 (connector (event_scanner self)) = Some w ->
  is_connected w = true ->
  block_number w (head_reads s) = Raises KeyboardInterrupt ->
  fst (run_loop keccak requests_post (S turns) self s) = Returns false /\
  head_reads (snd (run_loop keccak requests_post (S turns) self s))
    = S (head_reads s) /\
  last_scanned_block (snd (run_loop keccak requests_post (S turns) self s))
    = last_scanned_block s.
Proof.
  intros Hw Hc Hread.
  assert (Hrun : exists s1,
             run_iteration keccak requests_post self s = (Returns false, s1)
             /\ head_reads s1 = S (head_reads s)
             /\ last_scanned_block s1 = last_scanned_block s).
  { unfold run_iteration, try_except at 1, bind at 1.
    rewrite (scan_for_events_connected (event_scanner self) w s Hw Hc).
    unfold try_except, scan_body, bind, eth_block_number, logger, ret.
    simpl. rewrite Hread. simpl.
    eexists. split; [reflexivity |]. simpl. auto. }
  destruct Hrun as (s1 & Hrun & Hh & Hcur).
  simpl. unfold bind. rewrite Hrun. simpl. auto.
Qed.

End RunLoopProperties.

Lemma run_loop_polls_while_connector_down_witness :
  fst (run_loop sample_hash recovering_relayer 3
         (bridge unreachable_node signer) (start 100)) = Returns true /\
  last_scanned_block
    (snd (run_loop sample_hash recovering_relayer 3
            (bridge unreachable_node signer) (start 100)))
    = last_scanned_block (start 100) /\
  head_reads
    (snd (run_loop sample_hash recovering_relayer 3
            (bridge unreachable_node signer) (start 100)))
    = head_reads (start 100) /\
  filters
    (snd (run_loop sample_hash recovering_relayer 3
            (bridge unreachable_node signer) (start 100)))
    = filters (start 100) /\
  posts
    (snd (run_loop sample_hash recovering_relayer 3
            (bridge unreachable_node signer) (start 100)))
    = posts (start 100).
Proof.
  apply (run_loop_polls_while_connector_down sample_hash recovering_relayer
           (bridge unreachable_node signer) 3 (start 100)).
  right. exists unreachable_node. split; reflexivity.
Defined.

Lemma run_loop_stops_on_KeyboardInterrupt_witness :
  fst (run_loop sample_hash recovering_relayer 3
         (bridge interrupted_node signer) (start 100)) = Returns false /\
  head_reads
    (snd (run_loop sample_hash recovering_relayer 3
            (bridge interrupted_node signer) (start 100)))
    = S (head_reads (start 100)) /\
  last_scanned_block
    (snd (run_loop sample_hash recovering_relayer 3
            (bridge interrupted_node signer) (start 100)))
    = last_scanned_block (start 100).
Proof.
  apply (run_loop_stops_on_KeyboardInterrupt sample_hash recovering_relayer
           (bridge interrupted_node signer) interrupted_node 2 (start 100)).
  - reflexivity.
  - reflexivity.
  - reflexivity.
Defined.

(** With the listener entry inside the source chain the orchestrator is
    built, stopped, with the cursor at the head of that moment. *)
Example repaired_configuration_starts :
  exists o s1,
    BridgeOrchestrator_init sample_provider sample_chain_id sample_checksum
      sample_from_key (repaired_CONFIG (PyStr "0xkey")) (start 0)
      = (Returns o, s1) /\
    last_scanned_block s1 = 300 /\
    is_running o = false /\
    poll_interval o = PyInt 10.
Proof.
  eexists. eexists. split; [vm_compute; reflexivity |].
  repeat split.
Qed.
